(** * Stream geometry, configuration and runtime settings of the
      audio-processing interface (modules/audio_processing/include/audio_processing.h)

    A shallow embedding of the value types the header defines inline
    ([StreamConfig], [ProcessingConfig], [AudioProcessing::Config],
    [AudioProcessing::RuntimeSetting], the [Error] and [NativeRate]
    enumerations and the class constants), followed by the properties proved
    about them. *)

From Stdlib Require Import ZArith Lia Bool List.
From Stdlib Require Import Floats.SpecFloat.
From stdpp Require Import base option list gmap.

Local Open Scope Z_scope.

(** ** Machine arithmetic

    [int] is the 32-bit signed type of every platform the library builds
    for.  Signed overflow is undefined in C++, so the operations on [int]
    are partial: [None] stands for an evaluation the language gives no
    meaning to.  [size_t] is unsigned and [size_t_bits] wide; a conversion
    to it reduces modulo [2 ^ size_t_bits]. *)
Module CInt.

Definition INT_MIN : Z := - 2 ^ 31.
Definition INT_MAX : Z := 2 ^ 31 - 1.

Definition in_range (z : Z) : bool := (INT_MIN <=? z) && (z <=? INT_MAX).

(** [a * b] on [int]. *)
Definition mul (a b : Z) : option Z :=
  if in_range (a * b) then Some (a * b) else None.

(** [a / b] on [int]: the quotient is truncated towards zero. *)
Definition div (a b : Z) : option Z :=
  if b =? 0 then None
  else if in_range (a ÷ b) then Some (a ÷ b) else None.

(** [static_cast<size_t>(z)]. *)
Definition to_size_t (size_t_bits : Z) (z : Z) : Z := z mod 2 ^ size_t_bits.

End CInt.

(** ** Single-precision values

    [float] is IEEE 754 binary32: 24 bits of precision, exponents below
    128.  Values are [spec_float]s; the ones a program holds are canonical
    ([valid] holds of them). *)
Module Float32.

Definition prec : Z := 24.
Definition emax : Z := 128.

Definition float : Type := spec_float.

Definition valid (f : float) : bool := valid_binary prec emax f.

(** [static_cast<float>(z)] for an [int] [z]: rounding to nearest, ties to even. *)
Definition of_int (z : Z) : float := binary_normalize prec emax z 0 false.

(** [a >= b] and [a <= b]; both are false when an operand is a NaN. *)
Definition ge (a b : float) : bool := SFleb b a.
Definition le (a b : float) : bool := SFleb a b.

(** The literals the header writes. *)
Definition lit_0 : float := S754_zero false.                   (* 0.f *)
Definition lit_1 : float := S754_finite false 8388608 (-23).   (* 1.f *)
Definition lit_2 : float := S754_finite false 8388608 (-22).   (* 2.f *)
Definition lit_90 : float := S754_finite false 11796480 (-17). (* 90.f *)

(** The integer a value denotes, when it is finite and integral. *)
Definition to_Z (f : float) : option Z :=
  match f with
  | S754_zero _ => Some 0
  | S754_finite s m e =>
      let sign := if s then -1 else 1 in
      if 0 <=? e then Some (sign * (Z.pos m * 2 ^ e))
      else if Z.pos m mod 2 ^ (- e) =? 0 then Some (sign * (Z.pos m / 2 ^ (- e)))
      else None
  | _ => None
  end.

(** The classes of values: not a number, an infinity, a zero, and the sign
    bit of a value that has one. *)
Definition is_nan (f : float) : bool :=
  match f with S754_nan => true | _ => false end.

Definition is_infinite (f : float) : bool :=
  match f with S754_infinity _ => true | _ => false end.

Definition is_zero (f : float) : bool :=
  match f with S754_zero _ => true | _ => false end.

Definition sign_bit (f : float) : bool :=
  match f with
  | S754_zero s | S754_infinity s | S754_finite s _ _ => s
  | S754_nan => false
  end.

End Float32.

(** ** [class AudioProcessing]: enumerations, constants, [Config] and
    [RuntimeSetting] *)
Module AudioProcessing.

(** *** [enum Error] *)
Module Error.

Inductive t : Type :=
  | kNoError
  | kUnspecifiedError
  | kCreationFailedError
  | kUnsupportedComponentError
  | kUnsupportedFunctionError
  | kNullPointerError
  | kBadParameterError
  | kBadSampleRateError
  | kBadDataLengthError
  | kBadNumberChannelsError
  | kFileError
  | kStreamParameterNotSetError
  | kNotEnabledError
  | kBadStreamParameterWarning.

(** The value each enumerator is given. *)
Definition value (e : t) : Z :=
  match e with
  | kNoError => 0
  | kUnspecifiedError => -1
  | kCreationFailedError => -2
  | kUnsupportedComponentError => -3
  | kUnsupportedFunctionError => -4
  | kNullPointerError => -5
  | kBadParameterError => -6
  | kBadSampleRateError => -7
  | kBadDataLengthError => -8
  | kBadNumberChannelsError => -9
  | kFileError => -10
  | kStreamParameterNotSetError => -11
  | kNotEnabledError => -12
  | kBadStreamParameterWarning => -13
  end.

(** The enumerators in declaration order. *)
Definition all : list t :=
  [ kNoError; kUnspecifiedError; kCreationFailedError;
    kUnsupportedComponentError; kUnsupportedFunctionError; kNullPointerError;
    kBadParameterError; kBadSampleRateError; kBadDataLengthError;
    kBadNumberChannelsError; kFileError; kStreamParameterNotSetError;
    kNotEnabledError; kBadStreamParameterWarning ].

(** The header groups the enumerators under two comments, "Fatal errors."
    and "Warnings are non-fatal."; [kNoError] reports success. *)
Definition is_warning (e : t) : bool :=
  match e with kBadStreamParameterWarning => true | _ => false end.

Definition is_fatal (e : t) : bool :=
  match e with
  | kNoError | kBadStreamParameterWarning => false
  | _ => true
  end.

(** The enumerator an [int] returned by an entry point stands for. *)
Definition of_value (z : Z) : option t :=
  List.find (fun e => value e =? z) all.

End Error.

(** *** [enum NativeRate] and the class constants *)
Module NativeRate.

Inductive t : Type :=
  | kSampleRate8kHz
  | kSampleRate16kHz
  | kSampleRate32kHz
  | kSampleRate48kHz.

Definition value (r : t) : Z :=
  match r with
  | kSampleRate8kHz => 8000
  | kSampleRate16kHz => 16000
  | kSampleRate32kHz => 32000
  | kSampleRate48kHz => 48000
  end.

End NativeRate.

(** [arraysize(a)] of rtc_base/arraysize.h: the number of elements. *)
Definition arraysize {A : Type} (a : list A) : Z := Z.of_nat (length a).

Definition kNativeSampleRatesHz : list Z :=
  [ NativeRate.value NativeRate.kSampleRate8kHz;
    NativeRate.value NativeRate.kSampleRate16kHz;
    NativeRate.value NativeRate.kSampleRate32kHz;
    NativeRate.value NativeRate.kSampleRate48kHz ].

Definition kNumNativeSampleRates : Z := arraysize kNativeSampleRatesHz.

(** [kNativeSampleRatesHz[kNumNativeSampleRates - 1]]. *)
Definition kMaxNativeSampleRateHz : Z :=
  nth (Z.to_nat (kNumNativeSampleRates - 1)) kNativeSampleRatesHz 0.

Definition kChunkSizeMs : Z := 10.

(** *** [struct Config] *)
Module Config.
Import Float32.

Module Pipeline.
Record t : Type := Build {
  maximum_internal_processing_rate : Z;
  experimental_multi_channel : bool
}.
End Pipeline.

Module PreAmplifier.
Record t : Type := Build {
  enabled : bool;
  fixed_gain_factor : float
}.
Definition init : t := Build false lit_1.
End PreAmplifier.

Module HighPassFilter.
Record t : Type := Build { enabled : bool }.
Definition init : t := Build false.
End HighPassFilter.

Module EchoCanceller.
Record t : Type := Build {
  enabled : bool;
  mobile_mode : bool;
  legacy_moderate_suppression_level : bool;
  use_legacy_aec : bool
}.
Definition init : t := Build false false false false.
End EchoCanceller.

Module NoiseSuppression.
Inductive Level : Type := kLow | kModerate | kHigh | kVeryHigh.
Record t : Type := Build {
  enabled : bool;
  level : Level
}.
Definition init : t := Build false kModerate.
End NoiseSuppression.

Module VoiceDetection.
Record t : Type := Build { enabled : bool }.
Definition init : t := Build false.
End VoiceDetection.

Module GainController1.
Inductive Mode : Type := kAdaptiveAnalog | kAdaptiveDigital | kFixedDigital.
Record t : Type := Build {
  enabled : bool;
  mode : Mode;
  target_level_dbfs : Z;
  compression_gain_db : Z;
  enable_limiter : bool;
  analog_level_minimum : Z;
  analog_level_maximum : Z
}.
Definition init : t := Build false kAdaptiveAnalog 3 9 true 0 255.
End GainController1.

Module GainController2.
Inductive LevelEstimator : Type := kRms | kPeak.
Module FixedDigital.
Record t : Type := Build { gain_db : float }.
Definition init : t := Build lit_0.
End FixedDigital.
Module AdaptiveDigital.
Record t : Type := Build {
  enabled : bool;
  level_estimator : LevelEstimator;
  use_saturation_protector : bool;
  extra_saturation_margin_db : float
}.
Definition init : t := Build false kRms true lit_2.
End AdaptiveDigital.
Record t : Type := Build {
  enabled : bool;
  fixed_digital : FixedDigital.t;
  adaptive_digital : AdaptiveDigital.t
}.
Definition init : t := Build false FixedDigital.init AdaptiveDigital.init.
End GainController2.

Module ResidualEchoDetector.
Record t : Type := Build { enabled : bool }.
Definition init : t := Build true.
End ResidualEchoDetector.

Module LevelEstimation.
Record t : Type := Build { enabled : bool }.
Definition init : t := Build false.
End LevelEstimation.

Record t : Type := Build {
  pipeline : Pipeline.t;
  pre_amplifier : PreAmplifier.t;
  high_pass_filter : HighPassFilter.t;
  echo_canceller : EchoCanceller.t;
  noise_suppression : NoiseSuppression.t;
  voice_detection : VoiceDetection.t;
  gain_controller1 : GainController1.t;
  gain_controller2 : GainController2.t;
  residual_echo_detector : ResidualEchoDetector.t;
  level_estimation : LevelEstimation.t
}.

Section Construction.
(** [Pipeline::Pipeline()] is declared here and defined in the
    implementation file; the rate it stores is a parameter of the
    default-constructed configuration. *)
Variable default_maximum_internal_processing_rate : Z.

(** [Pipeline()]: the declared constructor and the member initialiser. *)
Definition Pipeline_ctor : Pipeline.t :=
  Pipeline.Build default_maximum_internal_processing_rate false.

(** [Config() = default]: every sub-block takes its member initialisers. *)
Definition ctor : t :=
  Build Pipeline_ctor PreAmplifier.init HighPassFilter.init EchoCanceller.init
        NoiseSuppression.init VoiceDetection.init GainController1.init
        GainController2.init ResidualEchoDetector.init LevelEstimation.init.

End Construction.

(** The [enabled] flag of each stage sub-block, by the member's name. *)
Inductive stage : Type :=
  | pre_amplifier_stage
  | high_pass_filter_stage
  | echo_canceller_stage
  | noise_suppression_stage
  | voice_detection_stage
  | gain_controller1_stage
  | gain_controller2_stage
  | residual_echo_detector_stage
  | level_estimation_stage.

Definition stage_enabled (c : t) (s : stage) : bool :=
  match s with
  | pre_amplifier_stage => PreAmplifier.enabled (pre_amplifier c)
  | high_pass_filter_stage => HighPassFilter.enabled (high_pass_filter c)
  | echo_canceller_stage => EchoCanceller.enabled (echo_canceller c)
  | noise_suppression_stage => NoiseSuppression.enabled (noise_suppression c)
  | voice_detection_stage => VoiceDetection.enabled (voice_detection c)
  | gain_controller1_stage => GainController1.enabled (gain_controller1 c)
  | gain_controller2_stage => GainController2.enabled (gain_controller2 c)
  | residual_echo_detector_stage =>
      ResidualEchoDetector.enabled (residual_echo_detector c)
  | level_estimation_stage => LevelEstimation.enabled (level_estimation c)
  end.

(** Agreement of two configurations on every data member of every
    sub-block, member by member. *)
Definition fields_agree (a b : t) : Prop :=
  Pipeline.maximum_internal_processing_rate (pipeline a)
    = Pipeline.maximum_internal_processing_rate (pipeline b)
  /\ Pipeline.experimental_multi_channel (pipeline a)
    = Pipeline.experimental_multi_channel (pipeline b)
  /\ PreAmplifier.enabled (pre_amplifier a) = PreAmplifier.enabled (pre_amplifier b)
  /\ PreAmplifier.fixed_gain_factor (pre_amplifier a)
    = PreAmplifier.fixed_gain_factor (pre_amplifier b)
  /\ HighPassFilter.enabled (high_pass_filter a)
    = HighPassFilter.enabled (high_pass_filter b)
  /\ EchoCanceller.enabled (echo_canceller a) = EchoCanceller.enabled (echo_canceller b)
  /\ EchoCanceller.mobile_mode (echo_canceller a)
    = EchoCanceller.mobile_mode (echo_canceller b)
  /\ EchoCanceller.legacy_moderate_suppression_level (echo_canceller a)
    = EchoCanceller.legacy_moderate_suppression_level (echo_canceller b)
  /\ EchoCanceller.use_legacy_aec (echo_canceller a)
    = EchoCanceller.use_legacy_aec (echo_canceller b)
  /\ NoiseSuppression.enabled (noise_suppression a)
    = NoiseSuppression.enabled (noise_suppression b)
  /\ NoiseSuppression.level (noise_suppression a)
    = NoiseSuppression.level (noise_suppression b)
  /\ VoiceDetection.enabled (voice_detection a)
    = VoiceDetection.enabled (voice_detection b)
  /\ GainController1.enabled (gain_controller1 a)
    = GainController1.enabled (gain_controller1 b)
  /\ GainController1.mode (gain_controller1 a) = GainController1.mode (gain_controller1 b)
  /\ GainController1.target_level_dbfs (gain_controller1 a)
    = GainController1.target_level_dbfs (gain_controller1 b)
  /\ GainController1.compression_gain_db (gain_controller1 a)
    = GainController1.compression_gain_db (gain_controller1 b)
  /\ GainController1.enable_limiter (gain_controller1 a)
    = GainController1.enable_limiter (gain_controller1 b)
  /\ GainController1.analog_level_minimum (gain_controller1 a)
    = GainController1.analog_level_minimum (gain_controller1 b)
  /\ GainController1.analog_level_maximum (gain_controller1 a)
    = GainController1.analog_level_maximum (gain_controller1 b)
  /\ GainController2.enabled (gain_controller2 a)
    = GainController2.enabled (gain_controller2 b)
  /\ GainController2.FixedDigital.gain_db (GainController2.fixed_digital (gain_controller2 a))
    = GainController2.FixedDigital.gain_db (GainController2.fixed_digital (gain_controller2 b))
  /\ GainController2.AdaptiveDigital.enabled
      (GainController2.adaptive_digital (gain_controller2 a))
    = GainController2.AdaptiveDigital.enabled
        (GainController2.adaptive_digital (gain_controller2 b))
  /\ GainController2.AdaptiveDigital.level_estimator
      (GainController2.adaptive_digital (gain_controller2 a))
    = GainController2.AdaptiveDigital.level_estimator
        (GainController2.adaptive_digital (gain_controller2 b))
  /\ GainController2.AdaptiveDigital.use_saturation_protector
      (GainController2.adaptive_digital (gain_controller2 a))
    = GainController2.AdaptiveDigital.use_saturation_protector
        (GainController2.adaptive_digital (gain_controller2 b))
  /\ GainController2.AdaptiveDigital.extra_saturation_margin_db
      (GainController2.adaptive_digital (gain_controller2 a))
    = GainController2.AdaptiveDigital.extra_saturation_margin_db
        (GainController2.adaptive_digital (gain_controller2 b))
  /\ ResidualEchoDetector.enabled (residual_echo_detector a)
    = ResidualEchoDetector.enabled (residual_echo_detector b)
  /\ LevelEstimation.enabled (level_estimation a)
    = LevelEstimation.enabled (level_estimation b).

(** Objects live at addresses; a store maps the address of each live
    [Config] object to its contents. *)
Definition addr : Type := positive.

(** [Config& operator=(const Config& config)], called on the object at
    [this]:
      if (this != &config) memcpy(this, &config, sizeof *this);
    Both references designate live objects.  The copy overwrites every
    byte of [*this], hence every member, with that of [config]. *)
Definition assign (this config : addr) (m : gmap addr t) : option (gmap addr t) :=
  _ ← m !! this;
  src ← m !! config;
  Some (if decide (this = config) then m else <[this := src]> m).

(** [Config(Config const&) = default]: the copy read from the object at [a]. *)
Definition copy (a : addr) (m : gmap addr t) : option t := m !! a.

(** Modelled from the spec: [ApplyConfig] and [GetConfig] are pure virtual
    in this header and their bodies are not part of the sources.  Following
    "Copied atomically (whole-struct replace) on ApplyConfig; read back
    verbatim via a getter", [ApplyConfig(config)] assigns [config] to the
    configuration object [config_] the instance owns, and [GetConfig()]
    returns a copy of that object. *)
Definition ApplyConfig (config_ config : addr) (m : gmap addr t) : option (gmap addr t) :=
  assign config_ config m.

Definition GetConfig (config_ : addr) (m : gmap addr t) : option t :=
  copy config_ m.

End Config.

(** *** [class RuntimeSetting] *)
Module RuntimeSetting.
Import Float32.

Inductive Type_ : Type :=
  | kNotSpecified
  | kCapturePreGain
  | kCaptureCompressionGain
  | kCaptureFixedPostGain
  | kPlayoutVolumeChange
  | kCustomRenderProcessingRuntimeSetting.

(** [union U { float float_value; int int_value; }], with the member the
    constructor initialised. *)
Inductive U : Type :=
  | U_float (float_value : float)
  | U_int (int_value : Z).

Record t : Type := Build {
  type_ : Type_;
  value_ : U
}.

(** [RuntimeSetting()]. *)
Definition ctor : t := Build kNotSpecified (U_float lit_0).

Section Checks.
(** [RTC_DCHECK], [RTC_DCHECK_GE] and [RTC_DCHECK_LE] come from
    rtc_base/checks.h, which is not part of the sources.  They are taken by
    their contract: in a build with [RTC_DCHECK_IS_ON] a failed condition
    is fatal (the call does not return, [None]); in a build without it the
    condition is not evaluated and the statement does nothing. *)
Variable RTC_DCHECK_IS_ON : bool.

Definition RTC_DCHECK (condition : bool) : option unit :=
  if RTC_DCHECK_IS_ON && negb condition then None else Some tt.

Definition CreateCapturePreGain (gain : float) : option t :=
  _ ← RTC_DCHECK (ge gain lit_1);
  Some (Build kCapturePreGain (U_float gain)).

Definition CreateCompressionGainDb (gain_db : Z) : option t :=
  _ ← RTC_DCHECK (0 <=? gain_db);
  _ ← RTC_DCHECK (gain_db <=? 90);
  Some (Build kCaptureCompressionGain (U_float (of_int gain_db))).

Definition CreateCaptureFixedPostGain (gain_db : float) : option t :=
  _ ← RTC_DCHECK (ge gain_db lit_0);
  _ ← RTC_DCHECK (le gain_db lit_90);
  Some (Build kCaptureFixedPostGain (U_float gain_db)).

Definition CreatePlayoutVolumeChange (volume : Z) : option t :=
  Some (Build kPlayoutVolumeChange (U_int volume)).

Definition CreateCustomRenderSetting (payload : float) : option t :=
  Some (Build kCustomRenderProcessingRuntimeSetting (U_float payload)).

End Checks.

Definition type (s : t) : Type_ := type_ s.

(** [GetFloat(float* value)] with a non-null [value]: what is stored
    through the pointer.  Reading the member the union does not hold has
    no defined result. *)
Definition GetFloat (s : t) : option float :=
  match value_ s with
  | U_float f => Some f
  | U_int _ => None
  end.

(** [GetInt(int* value)] with a non-null [value]. *)
Definition GetInt (s : t) : option Z :=
  match value_ s with
  | U_int i => Some i
  | U_float _ => None
  end.

(** The settings a program can hold.  The two constructors that take a
    type are private, so a setting is default-constructed or returned by a
    factory, in a build of either kind. *)
Inductive made : t -> Prop :=
  | made_ctor : made ctor
  | made_CreateCapturePreGain dcheck gain s :
      CreateCapturePreGain dcheck gain = Some s -> made s
  | made_CreateCompressionGainDb dcheck gain_db s :
      CreateCompressionGainDb dcheck gain_db = Some s -> made s
  | made_CreateCaptureFixedPostGain dcheck gain_db s :
      CreateCaptureFixedPostGain dcheck gain_db = Some s -> made s
  | made_CreatePlayoutVolumeChange volume s :
      CreatePlayoutVolumeChange volume = Some s -> made s
  | made_CreateCustomRenderSetting payload s :
      CreateCustomRenderSetting payload = Some s -> made s.

End RuntimeSetting.

End AudioProcessing.

(** ** [class StreamConfig] *)
Module StreamConfig.
Import AudioProcessing.

Record t : Type := Build {
  sample_rate_hz_ : Z;   (* int *)
  num_channels_ : Z;     (* size_t *)
  has_keyboard_ : bool;
  num_frames_ : Z        (* size_t *)
}.

Section Platform.
Variable size_t_bits : Z.

(** [static size_t calculate_frames(int sample_rate_hz)]:
    [static_cast<size_t>(kChunkSizeMs * sample_rate_hz / 1000)]. *)
Definition calculate_frames (sample_rate_hz : Z) : option Z :=
  p ← CInt.mul kChunkSizeMs sample_rate_hz;
  q ← CInt.div p 1000;
  Some (CInt.to_size_t size_t_bits q).

(** The constructor [StreamConfig(sample_rate_hz, num_channels, has_keyboard)]. *)
Definition ctor (sample_rate_hz num_channels : Z) (has_keyboard : bool) : option t :=
  n ← calculate_frames sample_rate_hz;
  Some (Build sample_rate_hz num_channels has_keyboard n).

Definition set_sample_rate_hz (value : Z) (s : t) : option t :=
  n ← calculate_frames value;
  Some (Build value (num_channels_ s) (has_keyboard_ s) n).

Definition set_num_channels (value : Z) (s : t) : t :=
  Build (sample_rate_hz_ s) value (has_keyboard_ s) (num_frames_ s).

Definition set_has_keyboard (value : bool) (s : t) : t :=
  Build (sample_rate_hz_ s) (num_channels_ s) value (num_frames_ s).

(** [num_samples()]: a product of two [size_t]. *)
Definition num_samples (s : t) : Z :=
  (num_channels_ s * num_frames_ s) mod 2 ^ size_t_bits.

(** A call of one of the three setters. *)
Inductive setter : Type :=
  | Set_sample_rate_hz (value : Z)
  | Set_num_channels (value : Z)
  | Set_has_keyboard (value : bool).

Definition call (op : setter) (s : t) : option t :=
  match op with
  | Set_sample_rate_hz v => set_sample_rate_hz v s
  | Set_num_channels v => Some (set_num_channels v s)
  | Set_has_keyboard v => Some (set_has_keyboard v s)
  end.

(** A sequence of setter calls, first call first. *)
Fixpoint calls (ops : list setter) (s : t) : option t :=
  match ops with
  | [] => Some s
  | op :: rest => s' ← call op s; calls rest s'
  end.

(** The objects a program can hold: built by the constructor, then changed
    by setters only (the data members are private). *)
Inductive reachable : t -> Prop :=
  | reachable_ctor sample_rate_hz num_channels has_keyboard s :
      ctor sample_rate_hz num_channels has_keyboard = Some s ->
      reachable s
  | reachable_call op s s' :
      reachable s -> call op s = Some s' -> reachable s'.

End Platform.

(** A setter call whose argument keeps [kChunkSizeMs * sample_rate_hz]
    inside [int]. *)
Definition rate_fits (op : setter) : Prop :=
  match op with
  | Set_sample_rate_hz v => CInt.INT_MIN <= kChunkSizeMs * v <= CInt.INT_MAX
  | _ => True
  end.

Definition sample_rate_hz (s : t) : Z := sample_rate_hz_ s.
Definition num_channels (s : t) : Z := num_channels_ s.
Definition has_keyboard (s : t) : bool := has_keyboard_ s.
Definition num_frames (s : t) : Z := num_frames_ s.

(** [operator==]: the derived [num_frames_] is not compared. *)
Definition eqb (a b : t) : bool :=
  (sample_rate_hz_ a =? sample_rate_hz_ b)
  && (num_channels_ a =? num_channels_ b)
  && Bool.eqb (has_keyboard_ a) (has_keyboard_ b).

(** [operator!=]. *)
Definition neqb (a b : t) : bool := negb (eqb a b).

(** Two stream descriptions with the same rate, channel count and keyboard
    flag. *)
Definition agree (a b : t) : Prop :=
  sample_rate_hz a = sample_rate_hz b
  /\ num_channels a = num_channels b
  /\ has_keyboard a = has_keyboard b.

(** The value the last call of each setter in a sequence passes, if the
    sequence calls that setter at all. *)
Fixpoint last_sample_rate_hz (ops : list setter) : option Z :=
  match ops with
  | [] => None
  | op :: rest =>
      match last_sample_rate_hz rest, op with
      | Some v, _ => Some v
      | None, Set_sample_rate_hz v => Some v
      | None, _ => None
      end
  end.

Fixpoint last_num_channels (ops : list setter) : option Z :=
  match ops with
  | [] => None
  | op :: rest =>
      match last_num_channels rest, op with
      | Some v, _ => Some v
      | None, Set_num_channels v => Some v
      | None, _ => None
      end
  end.

Fixpoint last_has_keyboard (ops : list setter) : option bool :=
  match ops with
  | [] => None
  | op :: rest =>
      match last_has_keyboard rest, op with
      | Some v, _ => Some v
      | None, Set_has_keyboard v => Some v
      | None, _ => None
      end
  end.

End StreamConfig.

(** ** [class ProcessingConfig] *)
Module ProcessingConfig.

(** [enum StreamName]; [kNumStreamNames] counts the four slots. *)
Inductive StreamName : Type :=
  | kInputStream
  | kOutputStream
  | kReverseInputStream
  | kReverseOutputStream.

Definition StreamName_value (n : StreamName) : Z :=
  match n with
  | kInputStream => 0
  | kOutputStream => 1
  | kReverseInputStream => 2
  | kReverseOutputStream => 3
  end.

Definition kNumStreamNames : Z := 4.

(** [StreamConfig streams[StreamName::kNumStreamNames]]: four objects,
    one per slot. *)
Record t : Type := Build {
  input_stream : StreamConfig.t;
  output_stream : StreamConfig.t;
  reverse_input_stream : StreamConfig.t;
  reverse_output_stream : StreamConfig.t
}.

(** [streams[i]]; an index outside the array designates no object. *)
Definition streams (c : t) (i : Z) : option StreamConfig.t :=
  if i =? StreamName_value kInputStream then Some (input_stream c)
  else if i =? StreamName_value kOutputStream then Some (output_stream c)
  else if i =? StreamName_value kReverseInputStream then Some (reverse_input_stream c)
  else if i =? StreamName_value kReverseOutputStream then Some (reverse_output_stream c)
  else None.

(** The loop of [operator==], started at index [i] with [fuel] iterations
    left to run:
      for (; i < kNumStreamNames; ++i)
        if (this->streams[i] != other.streams[i]) return false;
      return true;  *)
Fixpoint eqb_loop (fuel : nat) (i : Z) (a b : t) : option bool :=
  if negb (i <? kNumStreamNames) then Some true
  else
    match fuel with
    | O => None
    | S fuel' =>
        x ← streams a i;
        y ← streams b i;
        if StreamConfig.neqb x y then Some false
        else eqb_loop fuel' (i + 1) a b
    end.

(** [operator==]. *)
Definition eqb (a b : t) : option bool :=
  eqb_loop (Z.to_nat kNumStreamNames) 0 a b.

(** [operator!=]. *)
Definition neqb (a b : t) : option bool := negb <$> eqb a b.

(** Slot by slot agreement on the three stored properties. *)
Definition agree (a b : t) : Prop :=
  StreamConfig.agree (input_stream a) (input_stream b)
  /\ StreamConfig.agree (output_stream a) (output_stream b)
  /\ StreamConfig.agree (reverse_input_stream a) (reverse_input_stream b)
  /\ StreamConfig.agree (reverse_output_stream a) (reverse_output_stream b).

(** The slot a stream name designates, [streams[name]]: what the accessor
    of that name returns a reference to. *)
Definition slot (c : t) (n : StreamName) : StreamConfig.t :=
  match n with
  | kInputStream => input_stream c
  | kOutputStream => output_stream c
  | kReverseInputStream => reverse_input_stream c
  | kReverseOutputStream => reverse_output_stream c
  end.

(** An assignment through the reference the non-const accessor of a slot
    returns ([c.input_stream() = s] and the like): the implicit copy
    assignment of [StreamConfig] overwrites the four members of that slot. *)
Definition assign_slot (n : StreamName) (s : StreamConfig.t) (c : t) : t :=
  match n with
  | kInputStream =>
      Build s (output_stream c) (reverse_input_stream c) (reverse_output_stream c)
  | kOutputStream =>
      Build (input_stream c) s (reverse_input_stream c) (reverse_output_stream c)
  | kReverseInputStream =>
      Build (input_stream c) (output_stream c) s (reverse_output_stream c)
  | kReverseOutputStream =>
      Build (input_stream c) (output_stream c) (reverse_input_stream c) s
  end.

End ProcessingConfig.

(** ** The runtime-settings queue and the two frame entry points

    [SetRuntimeSetting], [ProcessStream] and [ProcessReverseStream] are
    pure virtual in the header; the queue and the per-frame processing are
    defined in the implementation file, which is not part of the sources.
    The definitions of this module follow the specification's description
    of them, step by step. *)
Module Orchestrator.
Import AudioProcessing.






Section Render.
(** Modelled from the spec: "the settings relevant to render processing".
    The specification does not say which settings these are. *)
Variable render_relevant : RuntimeSetting.t -> bool.











End Render.







End Orchestrator.

(** ** The option structs passed through [webrtc::Config]

    Each struct also declares a static [identifier] of the enumeration
    [ConfigOptionID] (modules/audio_processing/include/config.h), which is
    no part of an object's state. *)
Module ExtendedFilter.
Record t : Type := Build { enabled : bool }.
(** [ExtendedFilter() : enabled(false)]. *)
Definition ctor : t := Build false.
(** [explicit ExtendedFilter(bool enabled)]. *)
Definition ctor_enabled (enabled : bool) : t := Build enabled.
End ExtendedFilter.

Module RefinedAdaptiveFilter.
Record t : Type := Build { enabled : bool }.
Definition ctor : t := Build false.
Definition ctor_enabled (enabled : bool) : t := Build enabled.
End RefinedAdaptiveFilter.

Module DelayAgnostic.
Record t : Type := Build { enabled : bool }.
Definition ctor : t := Build false.
Definition ctor_enabled (enabled : bool) : t := Build enabled.
End DelayAgnostic.

Module ExperimentalNs.
Record t : Type := Build { enabled : bool }.
Definition ctor : t := Build false.
Definition ctor_enabled (enabled : bool) : t := Build enabled.
End ExperimentalNs.

Module ExperimentalAgc.

Definition kClippedLevelMin : Z := 70.

Record t : Type := Build {
  enabled : bool;
  startup_min_volume : Z;
  clipped_level_min : Z;
  enabled_agc2_level_estimator : bool;
  digital_adaptive_disabled : bool;
  analyze_before_aec : bool
}.

Section Build.
(** Whether the build defines [WEBRTC_CHROMIUM_BUILD]. *)
Variable WEBRTC_CHROMIUM_BUILD : bool.

Definition kAgcStartupMinVolume : Z :=
  if WEBRTC_CHROMIUM_BUILD then 85 else 0.

(** [ExperimentalAgc() = default]: the member initialisers. *)
Definition ctor : t :=
  Build true kAgcStartupMinVolume kClippedLevelMin false false false.

(** [explicit ExperimentalAgc(bool enabled)]. *)
Definition ctor_enabled (enabled : bool) : t :=
  Build enabled kAgcStartupMinVolume kClippedLevelMin false false false.




End Build.

End ExperimentalAgc.

(** * Properties *)

Import AudioProcessing.

(** ** Stream geometry: the derived frame length *)

(** [calculate_frames] is defined whenever the product
    [kChunkSizeMs * sample_rate_hz] fits an [int]. *)
Lemma calculate_frames_defined w sr :
  CInt.INT_MIN <= 10 * sr <= CInt.INT_MAX ->
  StreamConfig.calculate_frames w sr = Some ((10 * sr ÷ 1000) mod 2 ^ w).
Proof.
  intros H. unfold StreamConfig.calculate_frames, CInt.mul, CInt.div.
  unfold kChunkSizeMs.
  assert (Hin : CInt.in_range (10 * sr) = true).
  { unfold CInt.in_range. apply andb_true_intro; split; apply Z.leb_le; lia. }
  rewrite Hin. simpl.
  assert (Hq : CInt.in_range (10 * sr ÷ 1000) = true).
  { unfold CInt.in_range, CInt.INT_MIN, CInt.INT_MAX in *.
    apply andb_true_intro; split; apply Z.leb_le.
    - destruct (Z.le_gt_cases 0 (10 * sr)).
      + pose proof (Z.quot_pos (10 * sr) 1000); lia.
      + pose proof (Z.quot_opp_l (10 * sr) 1000 ltac:(lia)).
        pose proof (Z.quot_le_upper_bound (- (10 * sr)) 1000 (2 ^ 31)).
        lia.
    - destruct (Z.le_gt_cases 0 (10 * sr)).
      + pose proof (Z.quot_le_upper_bound (10 * sr) 1000 (2 ^ 31 - 1)). lia.
      + pose proof (Z.quot_opp_l (10 * sr) 1000 ltac:(lia)).
        pose proof (Z.quot_pos (- (10 * sr)) 1000). lia. }
  rewrite Hq. reflexivity.
Qed.

Lemma in_range_spec z :
  CInt.in_range z = true <-> CInt.INT_MIN <= z <= CInt.INT_MAX.
Proof.
  unfold CInt.in_range. rewrite andb_true_iff, !Z.leb_le. reflexivity.
Qed.

(** What a defined evaluation of [calculate_frames] returns. *)
Lemma calculate_frames_inv w sr n :
  StreamConfig.calculate_frames w sr = Some n ->
  CInt.INT_MIN <= kChunkSizeMs * sr <= CInt.INT_MAX
  /\ n = CInt.to_size_t w (kChunkSizeMs * sr ÷ 1000).
Proof.
  unfold StreamConfig.calculate_frames, CInt.mul, CInt.div.
  destruct (CInt.in_range (kChunkSizeMs * sr)) eqn:Hp; simpl; [|discriminate].
  destruct (CInt.in_range (kChunkSizeMs * sr ÷ 1000)) eqn:Hq; simpl; [|discriminate].
  intros [= <-]. split; [now apply in_range_spec | reflexivity].
Qed.

(** Every call of a setter keeps [num_frames_] in step with
    [sample_rate_hz_]. *)
Lemma call_preserves_frames w op s s' :
  StreamConfig.calculate_frames w (StreamConfig.sample_rate_hz s)
    = Some (StreamConfig.num_frames s) ->
  StreamConfig.call w op s = Some s' ->
  StreamConfig.calculate_frames w (StreamConfig.sample_rate_hz s')
    = Some (StreamConfig.num_frames s').
Proof.
  intros Hs Hcall. destruct op as [v|v|v]; simpl in Hcall.
  - unfold StreamConfig.set_sample_rate_hz in Hcall.
    destruct (StreamConfig.calculate_frames w v) as [n|] eqn:Hv; simpl in Hcall; [|discriminate].
    injection Hcall as <-. exact Hv.
  - injection Hcall as <-. exact Hs.
  - injection Hcall as <-. exact Hs.
Qed.

Lemma reachable_frames w s :
  StreamConfig.reachable w s ->
  StreamConfig.calculate_frames w (StreamConfig.sample_rate_hz s)
    = Some (StreamConfig.num_frames s).
Proof.
  induction 1 as [sr nc hk s Hc | op s s' _ IH Hcall].
  - unfold StreamConfig.ctor in Hc.
    destruct (StreamConfig.calculate_frames w sr) as [n|] eqn:Hn; simpl in Hc; [|discriminate].
    injection Hc as <-. exact Hn.
  - eapply call_preserves_frames; eassumption.
Qed.

(** A sequence of setter calls leads from a reachable object to a
    reachable object. *)
Lemma reachable_calls w ops : forall s s',
  StreamConfig.reachable w s ->
  StreamConfig.calls w ops s = Some s' ->
  StreamConfig.reachable w s'.
Proof.
  induction ops as [|op ops IH]; intros s s' Hr Hc; simpl in Hc.
  - injection Hc as <-. exact Hr.
  - destruct (StreamConfig.call w op s) as [s1|] eqn:H1; simpl in Hc; [|discriminate].
    eapply IH; [|exact Hc]. eapply StreamConfig.reachable_call; eassumption.
Qed.

(** The constructor and the setters are defined whenever the product
    [kChunkSizeMs * sample_rate_hz] fits an [int]. *)
Lemma ctor_defined w sr nc hk :
  CInt.INT_MIN <= 10 * sr <= CInt.INT_MAX ->
  StreamConfig.ctor w sr nc hk
    = Some (StreamConfig.Build sr nc hk ((10 * sr ÷ 1000) mod 2 ^ w)).
Proof.
  intros H. unfold StreamConfig.ctor.
  rewrite (calculate_frames_defined w sr H). reflexivity.
Qed.

Lemma set_sample_rate_hz_defined w v s :
  CInt.INT_MIN <= 10 * v <= CInt.INT_MAX ->
  StreamConfig.set_sample_rate_hz w v s
    = Some (StreamConfig.Build v (StreamConfig.num_channels s)
              (StreamConfig.has_keyboard s) ((10 * v ÷ 1000) mod 2 ^ w)).
Proof.
  intros H. unfold StreamConfig.set_sample_rate_hz.
  rewrite (calculate_frames_defined w v H). reflexivity.
Qed.

(** A sequence of setter calls whose rates all fit is defined on every
    object. *)
Lemma calls_defined w ops : forall s,
  Forall StreamConfig.rate_fits ops -> exists s', StreamConfig.calls w ops s = Some s'.
Proof.
  induction ops as [|op ops IH]; intros s Hfit; simpl.
  - exists s. reflexivity.
  - apply Forall_cons_1 in Hfit. destruct Hfit as [Hop Hrest].
    assert (Hstep : exists s1, StreamConfig.call w op s = Some s1).
    { destruct op as [v|v|v]; simpl in *.
      - rewrite (set_sample_rate_hz_defined w v s Hop). eexists; reflexivity.
      - eexists; reflexivity.
      - eexists; reflexivity. }
    destruct Hstep as [s1 ->]. simpl. apply IH, Hrest.
Qed.

(** For a rate that is not negative the conversion to [size_t] changes
    nothing once [size_t] has 22 bits or more. *)
Lemma frames_of_nonnegative_rate w sr :
  22 <= w -> 0 <= sr -> 10 * sr <= CInt.INT_MAX ->
  CInt.to_size_t w (10 * sr ÷ 1000) = 10 * sr / 1000.
Proof.
  intros Hw Hsr Hmax. unfold CInt.to_size_t, CInt.INT_MAX in *.
  rewrite Z.quot_div_nonneg by lia.
  apply Z.mod_small. split; [apply Z.div_pos; lia|].
  assert (10 * sr / 1000 < 2 ^ 22).
  { apply Z.div_lt_upper_bound; lia. }
  assert (2 ^ 22 <= 2 ^ w) by (apply Z.pow_le_mono_r; lia).
  lia.
Qed.

(** C1. Every [StreamConfig] built by the constructor and changed by any
    sequence of calls of [set_sample_rate_hz], [set_num_channels] and
    [set_has_keyboard] has [num_frames()] equal to what [calculate_frames]
    gives for its current rate: [kChunkSizeMs * sample_rate_hz / 1000]
    converted to [size_t], which for a rate that is not negative is the
    integer quotient [10 * sample_rate_hz / 1000].  A call of
    [set_sample_rate_hz] with a rate whose product with [kChunkSizeMs] fits
    an [int] returns, stores the new rate, recomputes the frame length from
    it and leaves the other two properties alone; a sequence of setter
    calls with such rates returns as well, and keeps the invariant. *)
Theorem StreamConfig_num_frames_invariant (w : Z) (s : StreamConfig.t) :
  StreamConfig.reachable w s ->
  StreamConfig.calculate_frames w (StreamConfig.sample_rate_hz s)
    = Some (StreamConfig.num_frames s)
  /\ StreamConfig.num_frames s
     = CInt.to_size_t w
         (kChunkSizeMs * StreamConfig.sample_rate_hz s ÷ 1000)
  /\ (22 <= w -> 0 <= StreamConfig.sample_rate_hz s ->
      StreamConfig.num_frames s
      = kChunkSizeMs * StreamConfig.sample_rate_hz s / 1000)
  /\ (forall ops s', StreamConfig.calls w ops s = Some s' ->
      StreamConfig.calculate_frames w (StreamConfig.sample_rate_hz s')
        = Some (StreamConfig.num_frames s'))
  /\ (forall v s', StreamConfig.set_sample_rate_hz w v s = Some s' ->
      StreamConfig.sample_rate_hz s' = v
      /\ StreamConfig.num_frames s'
         = CInt.to_size_t w (kChunkSizeMs * v ÷ 1000))
  /\ (forall v, CInt.INT_MIN <= kChunkSizeMs * v <= CInt.INT_MAX ->
      exists s',
        StreamConfig.set_sample_rate_hz w v s = Some s'
        /\ StreamConfig.sample_rate_hz s' = v
        /\ StreamConfig.num_frames s'
           = CInt.to_size_t w (kChunkSizeMs * v ÷ 1000)
        /\ StreamConfig.num_channels s' = StreamConfig.num_channels s
        /\ StreamConfig.has_keyboard s' = StreamConfig.has_keyboard s)
  /\ (forall ops, Forall StreamConfig.rate_fits ops ->
      exists s',
        StreamConfig.calls w ops s = Some s'
        /\ StreamConfig.reachable w s'
        /\ StreamConfig.calculate_frames w (StreamConfig.sample_rate_hz s')
           = Some (StreamConfig.num_frames s')).
Proof.
  intros Hr. pose proof (reachable_frames w s Hr) as Hf.
  destruct (calculate_frames_inv _ _ _ Hf) as [Hrange Hn].
  split; [exact Hf|]. split; [exact Hn|]. split; [|split; [|split; [|split]]].
  - intros Hw Hpos. rewrite Hn. unfold kChunkSizeMs in *.
    apply frames_of_nonnegative_rate; lia.
  - intros ops s' Hc. apply reachable_frames.
    eapply reachable_calls; eassumption.
  - intros v s' Hset.
    assert (Hr' : StreamConfig.reachable w s').
    { apply (StreamConfig.reachable_call w (StreamConfig.Set_sample_rate_hz v) s s' Hr Hset). }
    pose proof (reachable_frames w s' Hr') as Hf'.
    unfold StreamConfig.set_sample_rate_hz in Hset.
    destruct (StreamConfig.calculate_frames w v) as [n|] eqn:Hv; simpl in Hset; [|discriminate].
    injection Hset as <-. simpl. split; [reflexivity|].
    destruct (calculate_frames_inv _ _ _ Hv) as [_ ->]. reflexivity.
  - intros v Hv. unfold kChunkSizeMs in Hv.
    eexists. split; [apply (set_sample_rate_hz_defined w v s Hv)|].
    repeat split.
  - intros ops Hfit. destruct (calls_defined w ops s Hfit) as [s' Hs'].
    exists s'. split; [exact Hs'|].
    assert (Hr' : StreamConfig.reachable w s') by (eapply reachable_calls; eassumption).
    split; [exact Hr' | apply reachable_frames, Hr'].
Qed.

Lemma StreamConfig_num_frames_invariant_witness :
  StreamConfig.reachable 64 (StreamConfig.Build 48000 2 false 480)
  /\ StreamConfig.calculate_frames 64 48000 = Some 480
  /\ 480 = kChunkSizeMs * 48000 / 1000
  /\ exists s',
       StreamConfig.set_sample_rate_hz 64 16000 (StreamConfig.Build 48000 2 false 480)
       = Some s'
       /\ StreamConfig.sample_rate_hz s' = 16000
       /\ StreamConfig.num_frames s' = 160.
Proof.
  assert (Hr : StreamConfig.reachable 64 (StreamConfig.Build 48000 2 false 480)).
  { apply (StreamConfig.reachable_call 64 (StreamConfig.Set_num_channels 2)
             (StreamConfig.Build 48000 1 false 480)); [|reflexivity].
    apply (StreamConfig.reachable_call 64 (StreamConfig.Set_sample_rate_hz 48000)
             (StreamConfig.Build 16000 1 false 160)); [|vm_compute; reflexivity].
    apply (StreamConfig.reachable_ctor 64 16000 1 false). vm_compute. reflexivity. }
  split; [exact Hr|].
  destruct (StreamConfig_num_frames_invariant 64 _ Hr) as (Hf & _ & Hq & _ & _ & Hset & _).
  split; [exact Hf|]. split; [apply Hq; simpl; lia|].
  destruct (Hset 16000) as (s' & Hs' & Hrate & Hn & _); [vm_compute; split; discriminate|].
  exists s'. split; [exact Hs'|]. split; [exact Hrate|]. exact Hn.
Defined.

(** ** Stream geometry: negative rates *)

Lemma quot_negative_rate sr :
  sr < 0 -> 10 * sr ÷ 1000 = - ((- sr) / 100).
Proof.
  intros H. replace (10 * sr) with (- (10 * (- sr))) by lia.
  rewrite Z.quot_opp_l by lia. rewrite Z.quot_div_nonneg by lia.
  f_equal. replace 1000 with (10 * 100) by reflexivity.
  rewrite Z.div_mul_cancel_l by lia. reflexivity.
Qed.

(** The frame length the constructor derives from the rate -1 is 0: the
    quotient [10 * (-1) / 1000] is truncated towards zero, so nothing
    negative reaches the conversion to [size_t]. *)
Lemma StreamConfig_rate_minus_one_has_no_frames :
  StreamConfig.ctor 64 (-1) 1 false = Some (StreamConfig.Build (-1) 1 false 0)
  /\ kChunkSizeMs * (-1) ÷ 1000 = 0
  /\ ~ (exists s, StreamConfig.ctor 64 (-1) 1 false = Some s
                  /\ 2 ^ 63 <= StreamConfig.num_frames s).
Proof.
  split; [reflexivity|]. split; [reflexivity|].
  intros (s & Hs & Hbig). vm_compute in Hs. injection Hs as <-.
  vm_compute in Hbig. apply Hbig. reflexivity.
Qed.

(** C10 (amended). Neither the constructor nor [set_sample_rate_hz]
    validates the rate.  For a negative rate whose product with
    [kChunkSizeMs] still fits an [int] (-214748364 <= sample_rate_hz < 0)
    the rate is stored unchanged, next to the channel count and keyboard
    flag given.  When sample_rate_hz <= -100 the truncated quotient is
    negative and [num_frames()] is [2^w - (-sample_rate_hz) / 100], above
    [2^(w-1)]; when -100 < sample_rate_hz < 0 the quotient truncates to 0
    and [num_frames()] is 0. *)
Theorem StreamConfig_negative_rate_frames (w sr nc : Z) (hk : bool) (s0 : StreamConfig.t) :
  32 <= w ->
  CInt.INT_MIN <= kChunkSizeMs * sr ->
  sr < 0 ->
  exists s s',
    StreamConfig.ctor w sr nc hk = Some s
    /\ StreamConfig.set_sample_rate_hz w sr s0 = Some s'
    /\ StreamConfig.sample_rate_hz s = sr
    /\ StreamConfig.num_channels s = nc
    /\ StreamConfig.has_keyboard s = hk
    /\ StreamConfig.sample_rate_hz s' = sr
    /\ StreamConfig.num_frames s' = StreamConfig.num_frames s
    /\ (sr <= -100 ->
        kChunkSizeMs * sr ÷ 1000 < 0
        /\ StreamConfig.num_frames s = 2 ^ w - (- sr) / 100
        /\ 2 ^ (w - 1) < StreamConfig.num_frames s < 2 ^ w)
    /\ (-100 < sr ->
        kChunkSizeMs * sr ÷ 1000 = 0
        /\ StreamConfig.num_frames s = 0).
Proof.
  intros Hw Hmin Hneg. unfold kChunkSizeMs in *.
  assert (Hrange : CInt.INT_MIN <= 10 * sr <= CInt.INT_MAX).
  { unfold CInt.INT_MAX. lia. }
  eexists _, _. split; [apply (ctor_defined w sr nc hk Hrange)|].
  split; [apply (set_sample_rate_hz_defined w sr s0 Hrange)|].
  simpl. repeat (split; [reflexivity|]).
  rewrite (quot_negative_rate sr Hneg).
  assert (Hpow : 2 ^ w = 2 * 2 ^ (w - 1)).
  { rewrite <- Z.pow_succ_r by lia. f_equal. lia. }
  assert (Hbig : 2 ^ 31 <= 2 ^ (w - 1)) by (apply Z.pow_le_mono_r; lia).
  split.
  - intros Hle.
    assert (Hq1 : 1 <= (- sr) / 100) by (apply Z.div_le_lower_bound; lia).
    assert (Hq2 : (- sr) / 100 < 2 ^ 31).
    { apply Z.div_lt_upper_bound; unfold CInt.INT_MIN in Hmin; lia. }
    split; [lia|].
    assert (Hmod : (- (- sr / 100)) mod 2 ^ w = 2 ^ w - - sr / 100).
    { symmetry. apply (Z.mod_unique _ _ (-1)); lia. }
    rewrite Hmod. lia.
  - intros Hgt.
    assert (Hq : (- sr) / 100 = 0) by (apply Z.div_small; lia).
    rewrite Hq. split; [reflexivity|]. apply Z.mod_0_l. lia.
Qed.

Lemma StreamConfig_negative_rate_frames_witness :
  exists s s',
    StreamConfig.ctor 64 (-16000) 2 true = Some s
    /\ StreamConfig.set_sample_rate_hz 64 (-16000)
         (StreamConfig.Build 48000 1 false 480) = Some s'
    /\ StreamConfig.sample_rate_hz s = -16000
    /\ StreamConfig.num_frames s = 2 ^ 64 - 160
    /\ StreamConfig.num_frames s' = 2 ^ 64 - 160.
Proof.
  destruct (StreamConfig_negative_rate_frames 64 (-16000) 2 true
              (StreamConfig.Build 48000 1 false 480))
    as (s & s' & Hc & Hs & Hr & _ & _ & _ & Heq & Hbig & _);
    [lia | vm_compute; discriminate | lia |].
  exists s, s'. destruct (Hbig ltac:(lia)) as (_ & Hn & _).
  rewrite Heq. change (- -16000 / 100) with 160 in Hn.
  repeat split; assumption.
Defined.

(** ** Equality of stream and processing configurations *)

Lemma StreamConfig_eqb_agree x y :
  StreamConfig.eqb x y = true <-> StreamConfig.agree x y.
Proof.
  unfold StreamConfig.eqb, StreamConfig.agree,
    StreamConfig.sample_rate_hz, StreamConfig.num_channels, StreamConfig.has_keyboard.
  rewrite !andb_true_iff, !Z.eqb_eq, Bool.eqb_true_iff. tauto.
Qed.

(** Every index of the loop designates a slot. *)
Lemma streams_in_range c j :
  0 <= j < ProcessingConfig.kNumStreamNames ->
  exists x, ProcessingConfig.streams c j = Some x.
Proof.
  unfold ProcessingConfig.kNumStreamNames. intros Hj.
  assert (Hcases : j = 0 \/ j = 1 \/ j = 2 \/ j = 3) by lia.
  destruct Hcases as [-> | [-> | [-> | ->]]]; eexists; reflexivity.
Qed.

(** The loop of [operator==] returns, and returns [true] exactly when no
    index from [i] on holds two streams that differ. *)
Lemma eqb_loop_spec a b fuel : forall i,
  0 <= i <= ProcessingConfig.kNumStreamNames ->
  ProcessingConfig.kNumStreamNames - i <= Z.of_nat fuel ->
  exists r,
    ProcessingConfig.eqb_loop fuel i a b = Some r
    /\ (r = true <->
        forall j x y, i <= j < ProcessingConfig.kNumStreamNames ->
          ProcessingConfig.streams a j = Some x ->
          ProcessingConfig.streams b j = Some y ->
          StreamConfig.eqb x y = true).
Proof.
  induction fuel as [|fuel IH]; intros i Hi Hfuel.
  - assert (i = ProcessingConfig.kNumStreamNames) as -> by lia.
    exists true. split; [reflexivity|]. split; [|reflexivity].
    intros _ j x y Hj. lia.
  - cbn [ProcessingConfig.eqb_loop].
    destruct (i <? ProcessingConfig.kNumStreamNames) eqn:Hlt; cbn [negb].
    + apply Z.ltb_lt in Hlt.
      destruct (streams_in_range a i ltac:(lia)) as [x Hx].
      destruct (streams_in_range b i ltac:(lia)) as [y Hy].
      rewrite Hx, Hy. cbn [mbind option_bind].
      unfold StreamConfig.neqb.
      destruct (StreamConfig.eqb x y) eqn:Hxy; cbn [negb].
      * destruct (IH (i + 1) ltac:(lia) ltac:(lia)) as (r & Hr & Hiff).
        exists r. split; [exact Hr|]. rewrite Hiff. split.
        -- intros Hall j x' y' Hj Hx' Hy'.
           destruct (Z.eq_dec j i) as [->|Hne].
           ++ congruence.
           ++ apply (Hall j x' y'); [lia | assumption | assumption].
        -- intros Hall j x' y' Hj. apply Hall. lia.
      * exists false. split; [reflexivity|]. split; [discriminate|].
        intros Hall. rewrite (Hall i x y ltac:(lia) Hx Hy) in Hxy. discriminate.
    + apply Z.ltb_ge in Hlt.
      exists true. split; [reflexivity|]. split; [|reflexivity].
      intros _ j x y Hj. lia.
Qed.

(** C3. [ProcessingConfig::operator==] returns [true] exactly when the two
    configurations agree, in each of the four slots (input, output,
    reverse input, reverse output), on [sample_rate_hz], [num_channels] and
    [has_keyboard]; [operator!=] returns the negation of [operator==], for
    [ProcessingConfig] and for [StreamConfig]. *)
Theorem ProcessingConfig_eq_iff_streams_agree (a b : ProcessingConfig.t) :
  (exists r,
     ProcessingConfig.eqb a b = Some r
     /\ ProcessingConfig.neqb a b = Some (negb r)
     /\ (r = true <-> ProcessingConfig.agree a b))
  /\ (forall x y, StreamConfig.eqb x y = true <-> StreamConfig.agree x y)
  /\ (forall x y, StreamConfig.neqb x y = negb (StreamConfig.eqb x y)).
Proof.
  split; [|split; [exact StreamConfig_eqb_agree | reflexivity]].
  destruct (eqb_loop_spec a b (Z.to_nat ProcessingConfig.kNumStreamNames) 0)
    as (r & Hr & Hiff).
  { unfold ProcessingConfig.kNumStreamNames. lia. }
  { unfold ProcessingConfig.kNumStreamNames. lia. }
  exists r. split; [exact Hr|]. split.
  { unfold ProcessingConfig.neqb, ProcessingConfig.eqb. rewrite Hr. reflexivity. }
  rewrite Hiff. unfold ProcessingConfig.agree. rewrite <- !StreamConfig_eqb_agree.
  split.
  - intros Hall. repeat split.
    + apply (Hall 0); [unfold ProcessingConfig.kNumStreamNames; lia | reflexivity..].
    + apply (Hall 1); [unfold ProcessingConfig.kNumStreamNames; lia | reflexivity..].
    + apply (Hall 2); [unfold ProcessingConfig.kNumStreamNames; lia | reflexivity..].
    + apply (Hall 3); [unfold ProcessingConfig.kNumStreamNames; lia | reflexivity..].
  - intros (H0 & H1 & H2 & H3) j x y Hj Hx Hy.
    unfold ProcessingConfig.kNumStreamNames in Hj.
    assert (Hcases : j = 0 \/ j = 1 \/ j = 2 \/ j = 3) by lia.
    destruct Hcases as [-> | [-> | [-> | ->]]];
      cbn in Hx, Hy; injection Hx as <-; injection Hy as <-; assumption.
Qed.

(** ** The error codes *)

Lemma Error_all_complete (e : Error.t) :
  In e Error.all.
Proof. destruct e; simpl; tauto. Qed.

Lemma Error_of_value_value (e : Error.t) :
  Error.of_value (Error.value e) = Some e.
Proof. destruct e; reflexivity. Qed.

Lemma Error_value_inj (a b : Error.t) :
  Error.value a = Error.value b -> a = b.
Proof.
  intros H. apply (f_equal Error.of_value) in H.
  rewrite !Error_of_value_value in H. congruence.
Qed.

(** C4. [Error] is a closed enumeration of fourteen codes with pairwise
    distinct values: [kNoError] is 0, every fatal code is negative,
    [kStreamParameterNotSetError] has a value (-11) no other code has, and
    the only warning, [kBadStreamParameterWarning], has a value (-13) no
    fatal code has. *)
Theorem Error_codes_closed_and_distinct :
  (forall e, In e Error.all)
  /\ length Error.all = 14%nat
  /\ NoDup (map Error.value Error.all)
  /\ (forall a b, Error.value a = Error.value b <-> a = b)
  /\ Error.value Error.kNoError = 0
  /\ (forall e, Error.is_fatal e = true ->
        Error.value e < 0)
  /\ Error.is_fatal Error.kStreamParameterNotSetError = true
  /\ Error.value Error.kStreamParameterNotSetError = -11
  /\ (forall e, e <> Error.kStreamParameterNotSetError ->
        Error.value e
        <> Error.value Error.kStreamParameterNotSetError)
  /\ (forall e, Error.is_warning e = true <->
        e = Error.kBadStreamParameterWarning)
  /\ (forall e, Error.is_fatal e = true ->
        Error.value e
        <> Error.value Error.kBadStreamParameterWarning).
Proof.
  split; [exact Error_all_complete|]. split; [reflexivity|].
  split.
  { apply NoDup_ListNoDup. cbn.
    repeat (constructor; [cbn; intros Hin; repeat destruct Hin as [Hin|Hin]; try discriminate; exact Hin|]).
    constructor. }
  split.
  { intros a b. split; [apply Error_value_inj | intros ->; reflexivity]. }
  split; [reflexivity|].
  split; [intros e; destruct e; simpl; intros H; (discriminate || lia)|].
  split; [reflexivity|]. split; [reflexivity|].
  split.
  { intros e Hne Hv. apply Hne, Error_value_inj, Hv. }
  split.
  { intros e. destruct e; simpl; split; intros H; (reflexivity || discriminate). }
  intros e Hf Hv. apply Error_value_inj in Hv. subst e. discriminate.
Qed.

(** ** The native rates *)

(** C6. [kNativeSampleRatesHz] lists exactly 8000, 16000, 32000 and 48000,
    [kNumNativeSampleRates] is 4 and [kMaxNativeSampleRateHz], the last
    element of the array, is 48000 and is the largest native rate. *)
Theorem native_rates_are_8_16_32_48_kHz :
  kNativeSampleRatesHz = [8000; 16000; 32000; 48000]
  /\ kNumNativeSampleRates = 4
  /\ kMaxNativeSampleRateHz = 48000
  /\ kNativeSampleRatesHz
       !! Z.to_nat (kNumNativeSampleRates - 1)
     = Some kMaxNativeSampleRateHz
  /\ (forall r, In r kNativeSampleRatesHz <->
        r = 8000 \/ r = 16000 \/ r = 32000 \/ r = 48000)
  /\ (forall n, In (NativeRate.value n)
                  kNativeSampleRatesHz)
  /\ In kMaxNativeSampleRateHz kNativeSampleRatesHz
  /\ (forall r, In r kNativeSampleRatesHz ->
        r <= kMaxNativeSampleRateHz).
Proof.
  assert (Hin : forall r, In r kNativeSampleRatesHz <->
                  r = 8000 \/ r = 16000 \/ r = 32000 \/ r = 48000).
  { intros r. cbn. intuition congruence. }
  split; [reflexivity|]. split; [reflexivity|]. split; [reflexivity|].
  split; [reflexivity|]. split; [exact Hin|].
  split; [intros n; apply Hin; destruct n; cbn; auto|].
  split; [apply Hin; cbn; auto|].
  intros r Hr. apply Hin in Hr. change kMaxNativeSampleRateHz with 48000.
  lia.
Qed.

(** ** The default-constructed configuration *)

(** C7. In a default-constructed [Config] the parameters of
    [gain_controller1] lie in their ranges: [target_level_dbfs] is 3, in
    [0, 31]; [compression_gain_db] is 9, in [0, 90]; and
    0 <= [analog_level_minimum] = 0 <= [analog_level_maximum] = 255 <= 65535. *)
Theorem default_config_gain_controller1_in_range (rate : Z) :
  Config.GainController1.target_level_dbfs
    (Config.gain_controller1 (Config.ctor rate)) = 3
  /\ 0 <= Config.GainController1.target_level_dbfs
            (Config.gain_controller1 (Config.ctor rate)) <= 31
  /\ Config.GainController1.compression_gain_db
       (Config.gain_controller1 (Config.ctor rate)) = 9
  /\ 0 <= Config.GainController1.compression_gain_db
            (Config.gain_controller1 (Config.ctor rate)) <= 90
  /\ Config.GainController1.analog_level_minimum
       (Config.gain_controller1 (Config.ctor rate)) = 0
  /\ Config.GainController1.analog_level_maximum
       (Config.gain_controller1 (Config.ctor rate)) = 255
  /\ 0 <= Config.GainController1.analog_level_minimum
            (Config.gain_controller1 (Config.ctor rate))
       <= Config.GainController1.analog_level_maximum
            (Config.gain_controller1 (Config.ctor rate))
  /\ Config.GainController1.analog_level_maximum
       (Config.gain_controller1 (Config.ctor rate)) <= 65535.
Proof.
  cbn. repeat split; lia.
Qed.

(** C9. In a default-constructed [Config] the [enabled] flag of
    [pre_amplifier], [high_pass_filter], [echo_canceller],
    [noise_suppression], [voice_detection], [gain_controller1],
    [gain_controller2] and [level_estimation] is false, and that of
    [residual_echo_detector], alone, is true. *)
Theorem default_config_enabled_flags (rate : Z) :
  Config.PreAmplifier.enabled
    (Config.pre_amplifier (Config.ctor rate)) = false
  /\ Config.HighPassFilter.enabled
       (Config.high_pass_filter (Config.ctor rate)) = false
  /\ Config.EchoCanceller.enabled
       (Config.echo_canceller (Config.ctor rate)) = false
  /\ Config.NoiseSuppression.enabled
       (Config.noise_suppression (Config.ctor rate)) = false
  /\ Config.VoiceDetection.enabled
       (Config.voice_detection (Config.ctor rate)) = false
  /\ Config.GainController1.enabled
       (Config.gain_controller1 (Config.ctor rate)) = false
  /\ Config.GainController2.enabled
       (Config.gain_controller2 (Config.ctor rate)) = false
  /\ Config.LevelEstimation.enabled
       (Config.level_estimation (Config.ctor rate)) = false
  /\ Config.ResidualEchoDetector.enabled
       (Config.residual_echo_detector (Config.ctor rate)) = true
  /\ (forall s,
        Config.stage_enabled (Config.ctor rate) s = true
        <-> s = Config.residual_echo_detector_stage).
Proof.
  repeat (split; [reflexivity|]).
  intros s. destruct s; cbn; split; intros H; (reflexivity || discriminate).
Qed.

(** ** Copy assignment of [Config] *)

(** Agreement on every member of every sub-block is equality of the
    configurations. *)
Lemma Config_fields_agree_eq (a b : Config.t) :
  Config.fields_agree a b <-> a = b.
Proof.
  split.
  - destruct a as [[] [] [] [] [] [] [] [? [] []] [] []].
    destruct b as [[] [] [] [] [] [] [] [? [] []] [] []].
    unfold Config.fields_agree. cbn.
    intros H.
    repeat match goal with
           | H : _ /\ _ |- _ => destruct H as [? H]
           end.
    subst. reflexivity.
  - intros ->. unfold Config.fields_agree. repeat split.
Qed.

Lemma Config_assign_defined (m : gmap Config.addr Config.t)
    (d c : Config.addr) (vd vc : Config.t) :
  m !! d = Some vd -> m !! c = Some vc ->
  Config.assign d c m
  = Some (if decide (d = c) then m else <[d := vc]> m).
Proof.
  intros Hd Hc. unfold Config.assign. rewrite Hd, Hc. reflexivity.
Qed.

(** C5. Copy assignment [d = c] of [Config] replaces the whole object: when
    [d] and [c] are different objects, afterwards [d] holds the value of
    [c], member for member in every sub-block, while [c] and every other
    object are untouched; self-assignment changes nothing.  Hence
    [GetConfig()] after [ApplyConfig(c)] returns a configuration equal to
    [c] in every member. *)
Theorem Config_assign_replaces_whole_object
    (m : gmap Config.addr Config.t)
    (d c : Config.addr) (vd vc : Config.t) :
  m !! d = Some vd -> m !! c = Some vc ->
  exists m',
    Config.assign d c m = Some m'
    /\ m' !! d = Some vc
    /\ (forall v, Config.copy d m' = Some v ->
          Config.fields_agree v vc)
    /\ m' !! c = Some vc
    /\ (forall a, a <> d -> m' !! a = m !! a)
    /\ (d = c -> m' = m)
    /\ Config.ApplyConfig d c m = Some m'
    /\ Config.GetConfig d m' = Some vc.
Proof.
  intros Hd Hc. eexists. split; [apply (Config_assign_defined m d c vd vc Hd Hc)|].
  assert (Hread : (if decide (d = c) then m else <[d := vc]> m) !! d = Some vc).
  { destruct (decide (d = c)) as [->|Hne]; [exact Hc | apply lookup_insert_eq]. }
  split; [exact Hread|]. split.
  { intros v Hv. unfold Config.copy in Hv. rewrite Hread in Hv.
    injection Hv as <-. apply Config_fields_agree_eq. reflexivity. }
  split.
  { destruct (decide (d = c)) as [->|Hne]; [exact Hc|].
    rewrite lookup_insert_ne by exact Hne. exact Hc. }
  split.
  { intros a Ha. destruct (decide (d = c)); [reflexivity|].
    apply lookup_insert_ne. congruence. }
  split.
  { intros ->. destruct (decide (c = c)); [reflexivity | contradiction]. }
  split; [apply (Config_assign_defined m d c vd vc Hd Hc) | exact Hread].
Qed.

Lemma Config_assign_replaces_whole_object_witness :
  exists m',
    Config.assign 1%positive 2%positive
      (<[1%positive := Config.ctor 48000]>
         (<[2%positive := Config.ctor 32000]> ∅)) = Some m'
    /\ m' !! 1%positive = Some (Config.ctor 32000)
    /\ Config.GetConfig 1%positive m'
       = Some (Config.ctor 32000).
Proof.
  destruct (Config_assign_replaces_whole_object
              (<[1%positive := Config.ctor 48000]>
                 (<[2%positive := Config.ctor 32000]> ∅))
              1%positive 2%positive
              (Config.ctor 48000) (Config.ctor 32000))
    as (m' & Ha & Hd & _ & _ & _ & _ & _ & Hg); [reflexivity | reflexivity |].
  exists m'. repeat split; assumption.
Defined.

(** ** Runtime settings *)

(** The encodings of the literals agree with the conversion from [int]. *)
Lemma Float32_literals :
  Float32.lit_0 = Float32.of_int 0
  /\ Float32.lit_1 = Float32.of_int 1
  /\ Float32.lit_2 = Float32.of_int 2
  /\ Float32.lit_90 = Float32.of_int 90.
Proof. repeat split; vm_compute; reflexivity. Qed.

(** Every [int] from 0 to 90 converts to a canonical [float] that denotes
    the same integer. *)
Lemma Float32_of_int_exact (z : Z) :
  0 <= z <= 90 ->
  Float32.to_Z (Float32.of_int z) = Some z
  /\ Float32.valid (Float32.of_int z) = true.
Proof.
  intros Hz.
  assert (Hall : forallb (fun g =>
                   match Float32.to_Z (Float32.of_int g) with
                   | Some r => (r =? g) && Float32.valid (Float32.of_int g)
                   | None => false
                   end) (seqZ 0 91) = true) by (vm_compute; reflexivity).
  rewrite forallb_forall in Hall.
  specialize (Hall z). 
  assert (Hin : In z (seqZ 0 91)).
  { apply list_elem_of_In, elem_of_seqZ. lia. }
  specialize (Hall Hin).
  destruct (Float32.to_Z (Float32.of_int z)) as [r|]; [|discriminate].
  apply andb_true_iff in Hall. destruct Hall as [Hr Hv].
  apply Z.eqb_eq in Hr. subst r. split; [reflexivity | exact Hv].
Qed.

Lemma RTC_DCHECK_holds (dcheck : bool) :
  RuntimeSetting.RTC_DCHECK dcheck true = Some tt.
Proof. unfold RuntimeSetting.RTC_DCHECK. now rewrite andb_false_r. Qed.

Lemma RTC_DCHECK_fails (dcheck : bool) :
  RuntimeSetting.RTC_DCHECK dcheck false
  = if dcheck then None else Some tt.
Proof. destruct dcheck; reflexivity. Qed.

(** In a build without [RTC_DCHECK_IS_ON], [CreateCapturePreGain(0.5f)]
    returns a setting of type [kCapturePreGain] that carries the
    attenuating gain 0.5, and [CreateCompressionGainDb(91)] one that
    carries 91: no input is turned away. *)
Lemma RuntimeSetting_unchecked_build_accepts_out_of_range :
  Float32.valid (S754_finite false 8388608 (-24)) = true
  /\ Float32.ge (S754_finite false 8388608 (-24)) Float32.lit_1 = false
  /\ RuntimeSetting.CreateCapturePreGain false
       (S754_finite false 8388608 (-24))
     = Some (RuntimeSetting.Build
               RuntimeSetting.kCapturePreGain
               (RuntimeSetting.U_float (S754_finite false 8388608 (-24))))
  /\ RuntimeSetting.CreateCompressionGainDb false 91
     = Some (RuntimeSetting.Build
               RuntimeSetting.kCaptureCompressionGain
               (RuntimeSetting.U_float (Float32.of_int 91)))
  /\ ~ (forall dcheck gain,
          Float32.ge gain Float32.lit_1 = false ->
          RuntimeSetting.CreateCapturePreGain dcheck gain = None).
Proof.
  split; [reflexivity|]. split; [reflexivity|]. split; [reflexivity|].
  split; [reflexivity|].
  intros H. specialize (H false (S754_finite false 8388608 (-24)) eq_refl).
  discriminate H.
Qed.

(** C2 (amended). For an input inside its range every factory returns a
    setting of its own type whose getter gives the input back, in every
    build: [CreateCapturePreGain(g)] for g >= 1 ([kCapturePreGain],
    [GetFloat] gives g), [CreateCompressionGainDb(g)] for 0 <= g <= 90
    ([kCaptureCompressionGain], [GetFloat] gives float(g), which denotes
    g), [CreateCaptureFixedPostGain(g)] for 0 <= g <= 90
    ([kCaptureFixedPostGain], [GetFloat] gives g) and
    [CreatePlayoutVolumeChange(v)] for every v ([kPlayoutVolumeChange],
    [GetInt] gives v).  For an input outside its range the call is fatal
    in a build with [RTC_DCHECK_IS_ON]; in a build without it the factory
    performs no validation and returns the setting: the two factories that
    take a [float] with the input as given, [CreateCompressionGainDb(g)]
    with float(g), the conversion of the [int], which is rounded and need
    not denote g (float(16777217) is 16777216). *)
Theorem RuntimeSetting_factories (dcheck : bool) :
  (forall gain, Float32.ge gain Float32.lit_1 = true ->
     exists s,
       RuntimeSetting.CreateCapturePreGain dcheck gain = Some s
       /\ RuntimeSetting.type s
          = RuntimeSetting.kCapturePreGain
       /\ RuntimeSetting.GetFloat s = Some gain)
  /\ (forall gain_db, 0 <= gain_db <= 90 ->
     exists s,
       RuntimeSetting.CreateCompressionGainDb dcheck gain_db = Some s
       /\ RuntimeSetting.type s
          = RuntimeSetting.kCaptureCompressionGain
       /\ RuntimeSetting.GetFloat s = Some (Float32.of_int gain_db)
       /\ Float32.to_Z (Float32.of_int gain_db) = Some gain_db)
  /\ (forall gain_db,
     Float32.ge gain_db Float32.lit_0 = true ->
     Float32.le gain_db Float32.lit_90 = true ->
     exists s,
       RuntimeSetting.CreateCaptureFixedPostGain dcheck gain_db = Some s
       /\ RuntimeSetting.type s
          = RuntimeSetting.kCaptureFixedPostGain
       /\ RuntimeSetting.GetFloat s = Some gain_db)
  /\ (forall volume,
     exists s,
       RuntimeSetting.CreatePlayoutVolumeChange volume = Some s
       /\ RuntimeSetting.type s
          = RuntimeSetting.kPlayoutVolumeChange
       /\ RuntimeSetting.GetInt s = Some volume)
  /\ (forall gain, Float32.ge gain Float32.lit_1 = false ->
     RuntimeSetting.CreateCapturePreGain dcheck gain
     = if dcheck then None
       else Some (RuntimeSetting.Build
                    RuntimeSetting.kCapturePreGain
                    (RuntimeSetting.U_float gain)))
  /\ (forall gain_db, ~ (0 <= gain_db <= 90) ->
     RuntimeSetting.CreateCompressionGainDb dcheck gain_db
     = if dcheck then None
       else Some (RuntimeSetting.Build
                    RuntimeSetting.kCaptureCompressionGain
                    (RuntimeSetting.U_float (Float32.of_int gain_db))))
  /\ (forall gain_db,
     Float32.ge gain_db Float32.lit_0 && Float32.le gain_db Float32.lit_90 = false ->
     RuntimeSetting.CreateCaptureFixedPostGain dcheck gain_db
     = if dcheck then None
       else Some (RuntimeSetting.Build
                    RuntimeSetting.kCaptureFixedPostGain
                    (RuntimeSetting.U_float gain_db)))
  /\ (Float32.of_int 16777217 = Float32.of_int 16777216
      /\ Float32.to_Z (Float32.of_int 16777217) = Some 16777216).
Proof.
  split.
  { intros gain Hge. eexists.
    unfold RuntimeSetting.CreateCapturePreGain.
    rewrite Hge, RTC_DCHECK_holds. cbn. repeat split. }
  split.
  { intros g Hg. eexists.
    unfold RuntimeSetting.CreateCompressionGainDb.
    assert (H0 : (0 <=? g) = true) by (apply Z.leb_le; lia).
    assert (H90 : (g <=? 90) = true) by (apply Z.leb_le; lia).
    rewrite H0, H90, RTC_DCHECK_holds. cbn.
    repeat split. apply Float32_of_int_exact, Hg. }
  split.
  { intros g H0 H90. eexists.
    unfold RuntimeSetting.CreateCaptureFixedPostGain.
    rewrite H0, H90, RTC_DCHECK_holds. cbn. repeat split. }
  split.
  { intros v. eexists. repeat split. }
  split.
  { intros gain Hge.
    unfold RuntimeSetting.CreateCapturePreGain.
    rewrite Hge, RTC_DCHECK_fails. destruct dcheck; reflexivity. }
  split.
  { intros g Hg.
    unfold RuntimeSetting.CreateCompressionGainDb.
    destruct (0 <=? g) eqn:H0.
    - assert (H90 : (g <=? 90) = false).
      { apply Z.leb_le in H0. apply Z.leb_gt. lia. }
      rewrite H90, RTC_DCHECK_holds, RTC_DCHECK_fails. destruct dcheck; reflexivity.
    - rewrite RTC_DCHECK_fails. destruct dcheck; [reflexivity|].
      cbn. destruct (g <=? 90); reflexivity. }
  split.
  { intros g Hg.
    unfold RuntimeSetting.CreateCaptureFixedPostGain.
    apply andb_false_iff in Hg.
    destruct (Float32.ge g Float32.lit_0) eqn:H0.
    - destruct Hg as [Hg|Hg]; [discriminate|].
      rewrite Hg, RTC_DCHECK_holds, RTC_DCHECK_fails. destruct dcheck; reflexivity.
    - rewrite RTC_DCHECK_fails. destruct dcheck; [reflexivity|].
      cbn. destruct (Float32.le g Float32.lit_90); reflexivity. }
  split; vm_compute; reflexivity.
Qed.

(** ** Runtime settings: order of application *)




Section Interleavings.
Variable render_relevant : RuntimeSetting.t -> bool.











End Interleavings.




(** * Further properties of the stream geometry *)

Lemma StreamConfig_eqb_refl (a : StreamConfig.t) : StreamConfig.eqb a a = true.
Proof. apply StreamConfig_eqb_agree. repeat split. Qed.

(** On reachable objects the three members [operator==] compares decide
    the fourth. *)
Lemma StreamConfig_reachable_eqb_eq (w : Z) (a b : StreamConfig.t) :
  StreamConfig.reachable w a -> StreamConfig.reachable w b ->
  (StreamConfig.eqb a b = true <-> a = b).
Proof.
  intros Ha Hb.
  pose proof (reachable_frames w a Ha) as Hfa.
  pose proof (reachable_frames w b Hb) as Hfb.
  split.
  - intros H. apply StreamConfig_eqb_agree in H. destruct H as (Hr & Hc & Hk).
    destruct a as [ra ca ka na], b as [rb cb kb nb].
    unfold StreamConfig.sample_rate_hz, StreamConfig.num_channels,
      StreamConfig.has_keyboard, StreamConfig.num_frames in *.
    simpl in *. subst. rewrite Hfa in Hfb. injection Hfb as ->. reflexivity.
  - intros ->. apply StreamConfig_eqb_refl.
Qed.

(** X1. A [StreamConfig] reached from the constructor by setter calls is
    the very object the constructor builds from its current rate, channel
    count and keyboard flag.  So on such objects [operator==], which leaves
    [num_frames_] out, holds exactly when the two objects have the same
    four members, and [operator!=] exactly when they do not. *)
Theorem StreamConfig_reachable_canonical (w : Z) (a b : StreamConfig.t) :
  StreamConfig.reachable w a -> StreamConfig.reachable w b ->
  StreamConfig.ctor w (StreamConfig.sample_rate_hz a)
    (StreamConfig.num_channels a) (StreamConfig.has_keyboard a) = Some a
  /\ (StreamConfig.eqb a b = true <-> a = b)
  /\ (StreamConfig.neqb a b = true <-> a <> b).
Proof.
  intros Ha Hb.
  pose proof (StreamConfig_reachable_eqb_eq w a b Ha Hb) as Heq.
  split.
  { unfold StreamConfig.ctor. rewrite (reachable_frames w a Ha).
    destruct a; reflexivity. }
  split; [exact Heq|].
  unfold StreamConfig.neqb. rewrite negb_true_iff.
  destruct (StreamConfig.eqb a b) eqn:E.
  - split; [discriminate|]. intros Hne. exfalso. apply Hne, Heq. reflexivity.
  - split; [|reflexivity]. intros _ Hab. apply Heq in Hab. discriminate.
Qed.

Lemma StreamConfig_reachable_canonical_witness :
  StreamConfig.ctor 64 44100 2 true = Some (StreamConfig.Build 44100 2 true 441)
  /\ (StreamConfig.eqb (StreamConfig.Build 44100 2 true 441)
        (StreamConfig.Build 44100 1 true 441) = true
      <-> StreamConfig.Build 44100 2 true 441 = StreamConfig.Build 44100 1 true 441).
Proof.
  assert (Ha : StreamConfig.reachable 64 (StreamConfig.Build 44100 2 true 441)).
  { apply (StreamConfig.reachable_call 64 (StreamConfig.Set_sample_rate_hz 44100)
             (StreamConfig.Build 8000 2 true 80)); [|vm_compute; reflexivity].
    apply (StreamConfig.reachable_ctor 64 8000 2 true). vm_compute. reflexivity. }
  assert (Hb : StreamConfig.reachable 64 (StreamConfig.Build 44100 1 true 441)).
  { apply (StreamConfig.reachable_ctor 64 44100 1 true). vm_compute. reflexivity. }
  destruct (StreamConfig_reachable_canonical 64 _ _ Ha Hb) as (Hc & Heq & _).
  exact (conj Hc Heq).
Defined.

(** X2. What a sequence of setter calls leaves behind depends only on the
    last value passed to each setter: a property no call set keeps its old
    value, [num_frames()] is recomputed from the last rate set (and kept
    when no rate was set), and two sequences that end with the same values
    lead from an object to the same object, whatever their order and
    length. *)
Theorem StreamConfig_calls_last_write_wins (w : Z)
    (ops : list StreamConfig.setter) (s s' : StreamConfig.t) :
  StreamConfig.calls w ops s = Some s' ->
  (StreamConfig.sample_rate_hz s'
   = default (StreamConfig.sample_rate_hz s) (StreamConfig.last_sample_rate_hz ops)
   /\ StreamConfig.num_channels s'
      = default (StreamConfig.num_channels s) (StreamConfig.last_num_channels ops)
   /\ StreamConfig.has_keyboard s'
      = default (StreamConfig.has_keyboard s) (StreamConfig.last_has_keyboard ops)
   /\ StreamConfig.num_frames s'
      = match StreamConfig.last_sample_rate_hz ops with
        | Some v => CInt.to_size_t w (kChunkSizeMs * v ÷ 1000)
        | None => StreamConfig.num_frames s
        end)
  /\ (forall ops2 s2,
        StreamConfig.calls w ops2 s = Some s2 ->
        StreamConfig.last_sample_rate_hz ops2 = StreamConfig.last_sample_rate_hz ops ->
        StreamConfig.last_num_channels ops2 = StreamConfig.last_num_channels ops ->
        StreamConfig.last_has_keyboard ops2 = StreamConfig.last_has_keyboard ops ->
        s2 = s').
Proof.
  assert (Hfields : forall ops s s',
    StreamConfig.calls w ops s = Some s' ->
    StreamConfig.sample_rate_hz s'
    = default (StreamConfig.sample_rate_hz s) (StreamConfig.last_sample_rate_hz ops)
    /\ StreamConfig.num_channels s'
       = default (StreamConfig.num_channels s) (StreamConfig.last_num_channels ops)
    /\ StreamConfig.has_keyboard s'
       = default (StreamConfig.has_keyboard s) (StreamConfig.last_has_keyboard ops)
    /\ StreamConfig.num_frames s'
       = match StreamConfig.last_sample_rate_hz ops with
         | Some v => CInt.to_size_t w (kChunkSizeMs * v ÷ 1000)
         | None => StreamConfig.num_frames s
         end).
  { clear. induction ops as [|op ops IH]; intros s s' Hc; simpl in Hc.
    - injection Hc as <-. repeat split.
    - destruct (StreamConfig.call w op s) as [s1|] eqn:H1; simpl in Hc; [|discriminate].
      destruct (IH s1 s' Hc) as (Hr & Hn & Hk & Hf). clear IH Hc.
      rewrite Hr, Hn, Hk, Hf. clear Hr Hn Hk Hf. simpl.
      destruct op as [v|v|v]; simpl in H1.
      + unfold StreamConfig.set_sample_rate_hz in H1.
        destruct (StreamConfig.calculate_frames w v) as [n|] eqn:Hv;
          simpl in H1; [|discriminate].
        injection H1 as <-. apply calculate_frames_inv in Hv. destruct Hv as [_ ->].
        destruct (StreamConfig.last_sample_rate_hz ops),
          (StreamConfig.last_num_channels ops),
          (StreamConfig.last_has_keyboard ops); repeat split.
      + injection H1 as <-.
        destruct (StreamConfig.last_sample_rate_hz ops),
          (StreamConfig.last_num_channels ops),
          (StreamConfig.last_has_keyboard ops); repeat split.
      + injection H1 as <-.
        destruct (StreamConfig.last_sample_rate_hz ops),
          (StreamConfig.last_num_channels ops),
          (StreamConfig.last_has_keyboard ops); repeat split. }
  intros Hc. split; [apply Hfields, Hc|].
  intros ops2 s2 Hc2 Er En Ek.
  destruct (Hfields ops s s' Hc) as (Hr & Hn & Hk & Hf).
  destruct (Hfields ops2 s s2 Hc2) as (Hr2 & Hn2 & Hk2 & Hf2).
  rewrite Er in Hr2, Hf2. rewrite En in Hn2. rewrite Ek in Hk2.
  destruct s' as [r' c' k' n'], s2 as [r2 c2 k2 n2].
  unfold StreamConfig.sample_rate_hz, StreamConfig.num_channels,
    StreamConfig.has_keyboard, StreamConfig.num_frames in *.
  simpl in *. congruence.
Qed.

Lemma StreamConfig_calls_last_write_wins_witness :
  StreamConfig.calls 64
    [ StreamConfig.Set_num_channels 2; StreamConfig.Set_sample_rate_hz 8000;
      StreamConfig.Set_num_channels 1; StreamConfig.Set_sample_rate_hz 32000 ]
    (StreamConfig.Build 16000 6 true 160)
  = Some (StreamConfig.Build 32000 1 true 320)
  /\ StreamConfig.num_frames (StreamConfig.Build 32000 1 true 320)
     = CInt.to_size_t 64 (kChunkSizeMs * 32000 ÷ 1000).
Proof.
  assert (Hc : StreamConfig.calls 64
    [ StreamConfig.Set_num_channels 2; StreamConfig.Set_sample_rate_hz 8000;
      StreamConfig.Set_num_channels 1; StreamConfig.Set_sample_rate_hz 32000 ]
    (StreamConfig.Build 16000 6 true 160)
    = Some (StreamConfig.Build 32000 1 true 320)) by (vm_compute; reflexivity).
  split; [exact Hc|].
  destruct (StreamConfig_calls_last_write_wins 64 _ _ _ Hc) as ((_ & _ & _ & Hf) & _).
  exact Hf.
Defined.

(** For a rate that is not negative, the frame length is the rate divided
    by 100, rounded down. *)
Lemma frames_hundredth w sr n :
  22 <= w -> 0 <= sr ->
  StreamConfig.calculate_frames w sr = Some n -> n = sr / 100.
Proof.
  intros Hw Hsr Hn. destruct (calculate_frames_inv _ _ _ Hn) as [Hrange ->].
  unfold kChunkSizeMs in *.
  rewrite frames_of_nonnegative_rate by lia.
  replace 1000 with (10 * 100) by reflexivity.
  apply Z.div_mul_cancel_l; lia.
Qed.

(** X3. For an object with a rate and a channel count that are not
    negative, [num_samples()] is [num_channels * (sample_rate_hz / 100)]
    reduced modulo [2 ^ w], and the keyboard flag has no part in it.  When
    that product fits [size_t], [num_samples()] is the product itself and
    is then 0 exactly when there is no channel or the rate is below
    100 Hz; when it does not fit, the count wraps. *)
Theorem StreamConfig_num_samples_exact (w : Z) (s : StreamConfig.t) :
  22 <= w ->
  StreamConfig.reachable w s ->
  0 <= StreamConfig.sample_rate_hz s ->
  0 <= StreamConfig.num_channels s ->
  StreamConfig.num_samples w s
  = (StreamConfig.num_channels s * (StreamConfig.sample_rate_hz s / 100)) mod 2 ^ w
  /\ (forall k, StreamConfig.num_samples w (StreamConfig.set_has_keyboard k s)
                = StreamConfig.num_samples w s)
  /\ (StreamConfig.num_channels s * (StreamConfig.sample_rate_hz s / 100) < 2 ^ w ->
      StreamConfig.num_samples w s
      = StreamConfig.num_channels s * (StreamConfig.sample_rate_hz s / 100)
      /\ (StreamConfig.num_samples w s = 0
          <-> StreamConfig.num_channels s = 0 \/ StreamConfig.sample_rate_hz s < 100)).
Proof.
  intros Hw Hr Hsr Hnc.
  pose proof (frames_hundredth w _ _ Hw Hsr (reachable_frames w s Hr)) as Hn.
  unfold StreamConfig.num_frames, StreamConfig.num_channels,
    StreamConfig.sample_rate_hz in *.
  assert (Hq : 0 <= StreamConfig.sample_rate_hz_ s / 100) by (apply Z.div_pos; lia).
  assert (Hmod : StreamConfig.num_samples w s
                 = (StreamConfig.num_channels_ s
                    * (StreamConfig.sample_rate_hz_ s / 100)) mod 2 ^ w).
  { unfold StreamConfig.num_samples. rewrite Hn. reflexivity. }
  split; [exact Hmod|]. split; [reflexivity|].
  intros Hfit.
  assert (Hs : StreamConfig.num_samples w s
               = StreamConfig.num_channels_ s * (StreamConfig.sample_rate_hz_ s / 100)).
  { rewrite Hmod. apply Z.mod_small. nia. }
  split; [exact Hs|].
  rewrite Hs. split.
  - intros H0. apply Z.mul_eq_0 in H0. destruct H0 as [H0|H0]; [left; exact H0|].
    right. destruct (Z.lt_ge_cases (StreamConfig.sample_rate_hz_ s) 100) as [Hlt|Hge];
      [exact Hlt|].
    assert (1 <= StreamConfig.sample_rate_hz_ s / 100)
      by (apply Z.div_le_lower_bound; lia).
    lia.
  - intros [H0|Hlt]; [rewrite H0; reflexivity|].
    rewrite Z.div_small by lia. lia.
Qed.

Lemma StreamConfig_num_samples_exact_witness :
  StreamConfig.num_samples 32 (StreamConfig.Build 48000 2 true 480) = 960
  /\ StreamConfig.num_samples 64 (StreamConfig.Build 200 (2 ^ 63) false 2) = 0.
Proof.
  assert (Hr : StreamConfig.reachable 32 (StreamConfig.Build 48000 2 true 480)).
  { apply (StreamConfig.reachable_ctor 32 48000 2 true). vm_compute. reflexivity. }
  assert (Hr' : StreamConfig.reachable 64 (StreamConfig.Build 200 (2 ^ 63) false 2)).
  { apply (StreamConfig.reachable_ctor 64 200 (2 ^ 63) false). vm_compute. reflexivity. }
  split.
  - destruct (StreamConfig_num_samples_exact 32 _ ltac:(lia) Hr) as (_ & _ & Hs);
      [simpl; lia | simpl; lia |].
    destruct Hs as [Hs _]; [vm_compute; reflexivity | exact Hs].
  - destruct (StreamConfig_num_samples_exact 64 _ ltac:(lia) Hr') as (Hm & _);
      [simpl; lia | vm_compute; discriminate |].
    exact Hm.
Defined.

(** X4. For a rate that is not negative the constructor rounds the frame
    length down to a whole number of samples: [100 * num_frames()] is the
    rate less its remainder modulo 100, so it is the rate itself exactly
    when the rate is a multiple of 100 Hz, as every native rate is (none
    gives more than 480 frames); and a larger rate never gives fewer
    frames. *)
Theorem StreamConfig_frames_round_down (w sr nc : Z) (hk : bool) :
  22 <= w -> 0 <= sr -> kChunkSizeMs * sr <= CInt.INT_MAX ->
  exists s,
    StreamConfig.ctor w sr nc hk = Some s
    /\ 100 * StreamConfig.num_frames s = sr - sr mod 100
    /\ (100 * StreamConfig.num_frames s = sr <-> sr mod 100 = 0)
    /\ (In sr kNativeSampleRatesHz ->
        100 * StreamConfig.num_frames s = sr /\ StreamConfig.num_frames s <= 480)
    /\ (forall sr' s', sr <= sr' ->
        StreamConfig.ctor w sr' nc hk = Some s' ->
        StreamConfig.num_frames s <= StreamConfig.num_frames s').
Proof.
  intros Hw Hsr Hmax. unfold kChunkSizeMs in Hmax.
  assert (Hrange : CInt.INT_MIN <= 10 * sr <= CInt.INT_MAX).
  { unfold CInt.INT_MIN. lia. }
  pose proof (calculate_frames_defined w sr Hrange) as Hcf.
  pose proof (frames_hundredth w sr _ Hw Hsr Hcf) as Hn.
  eexists. split; [apply (ctor_defined w sr nc hk Hrange)|].
  unfold StreamConfig.num_frames. cbn [StreamConfig.num_frames_]. rewrite Hn.
  pose proof (Z.div_mod sr 100 ltac:(lia)) as Hdm.
  split; [lia|]. split; [lia|]. split.
  - intros Hin. cbn in Hin.
    destruct Hin as [<-|[<-|[<-|[<-|[]]]]]; vm_compute; split; (reflexivity || discriminate).
  - intros sr' s' Hle Hc'. unfold StreamConfig.ctor in Hc'.
    destruct (StreamConfig.calculate_frames w sr') as [n'|] eqn:Hn';
      simpl in Hc'; [|discriminate].
    injection Hc' as <-. cbn [StreamConfig.num_frames_].
    rewrite (frames_hundredth w sr' n' Hw ltac:(lia) Hn').
    apply Z.div_le_mono; lia.
Qed.

Lemma StreamConfig_frames_round_down_witness :
  exists s,
    StreamConfig.ctor 64 11025 1 false = Some s
    /\ 100 * StreamConfig.num_frames s = 11025 - 11025 mod 100.
Proof.
  destruct (StreamConfig_frames_round_down 64 11025 1 false)
    as (s & Hc & Hn & _); [lia | lia | vm_compute; discriminate |].
  exists s. split; assumption.
Defined.

(** X5. The constructor and [set_sample_rate_hz] have a defined result
    exactly for the rates from -214748364 to 214748364, those whose product
    with [kChunkSizeMs] does not overflow [int]; a sequence of setter calls
    has one exactly when every rate it sets is among them. *)
Theorem StreamConfig_defined_iff_rate_fits (w sr nc : Z) (hk : bool)
    (s0 : StreamConfig.t) (ops : list StreamConfig.setter) :
  (is_Some (StreamConfig.ctor w sr nc hk) <-> -214748364 <= sr <= 214748364)
  /\ (is_Some (StreamConfig.set_sample_rate_hz w sr s0)
      <-> -214748364 <= sr <= 214748364)
  /\ (is_Some (StreamConfig.calls w ops s0) <-> Forall StreamConfig.rate_fits ops).
Proof.
  assert (Hfit : forall v, CInt.INT_MIN <= 10 * v <= CInt.INT_MAX
                           <-> -214748364 <= v <= 214748364).
  { intros v. unfold CInt.INT_MIN, CInt.INT_MAX. lia. }
  assert (Hcf : forall v, is_Some (StreamConfig.calculate_frames w v)
                          <-> -214748364 <= v <= 214748364).
  { intros v. rewrite <- Hfit. split.
    - intros [n Hn]. apply calculate_frames_inv in Hn. apply Hn.
    - intros H. rewrite (calculate_frames_defined w v H). eexists; reflexivity. }
  split; [|split].
  - rewrite <- Hcf. unfold StreamConfig.ctor.
    destruct (StreamConfig.calculate_frames w sr); simpl; split;
      intros [x Hx]; try discriminate; eexists; reflexivity.
  - rewrite <- Hcf. unfold StreamConfig.set_sample_rate_hz.
    destruct (StreamConfig.calculate_frames w sr); simpl; split;
      intros [x Hx]; try discriminate; eexists; reflexivity.
  - split.
    + revert s0. induction ops as [|op ops IH]; intros s0 [s' Hs']; [constructor|].
      simpl in Hs'.
      destruct (StreamConfig.call w op s0) as [s1|] eqn:H1; simpl in Hs'; [|discriminate].
      constructor; [|apply (IH s1); eexists; exact Hs'].
      destruct op as [v|v|v]; simpl; [|exact I|exact I].
      simpl in H1. unfold kChunkSizeMs. apply Hfit, Hcf.
      unfold StreamConfig.set_sample_rate_hz in H1.
      destruct (StreamConfig.calculate_frames w v); [eexists; reflexivity|discriminate].
    + intros Hall. destruct (calls_defined w ops s0 Hall) as [s' Hs'].
      eexists; exact Hs'.
Qed.

(** * Further properties of the error codes *)

(** X6. The values of [Error] are exactly the integers from -13 to 0, with
    no gap: each of them is the value of one enumerator, found again from
    the value, and no other integer is an error code.  A code is negative
    exactly when it is not [kNoError], so the sign does not tell the
    warning from the fatal errors; the warning has the least value. *)
Theorem Error_values_fill_range (z : Z) :
  ((exists e, Error.value e = z) <-> -13 <= z <= 0)
  /\ (forall e, Error.of_value z = Some e <-> Error.value e = z)
  /\ (Error.of_value z = None <-> z < -13 \/ 0 < z)
  /\ (forall e, Error.value e < 0 <-> e <> Error.kNoError)
  /\ (forall e, e <> Error.kBadStreamParameterWarning ->
        Error.value Error.kBadStreamParameterWarning < Error.value e).
Proof.
  assert (Hneg : forall e, Error.value e < 0 <-> e <> Error.kNoError).
  { intros e. destruct e; simpl; split; intros H; try lia; try discriminate.
    exfalso. apply H. reflexivity. }
  assert (Hleast : forall e, e <> Error.kBadStreamParameterWarning ->
            Error.value Error.kBadStreamParameterWarning < Error.value e).
  { intros e. destruct e; simpl; intros H; try lia. exfalso. apply H. reflexivity. }
  cut (((exists e, Error.value e = z) <-> -13 <= z <= 0)
       /\ (forall e, Error.of_value z = Some e <-> Error.value e = z)
       /\ (Error.of_value z = None <-> z < -13 \/ 0 < z)).
  { intros (H1 & H2 & H3). exact (conj H1 (conj H2 (conj H3 (conj Hneg Hleast)))). }
  clear Hneg Hleast.
  assert (Hsome : forall e, Error.of_value z = Some e <-> Error.value e = z).
  { intros e. split.
    - intros H. unfold Error.of_value in H. apply find_some in H.
      destruct H as [_ H]. apply Z.eqb_eq, H.
    - intros <-. apply Error_of_value_value. }
  assert (Hrange : -13 <= z <= 0 -> exists e, Error.value e = z).
  { intros Hz.
    assert (Hc : z = 0 \/ z = -1 \/ z = -2 \/ z = -3 \/ z = -4 \/ z = -5 \/ z = -6
                 \/ z = -7 \/ z = -8 \/ z = -9 \/ z = -10 \/ z = -11 \/ z = -12
                 \/ z = -13) by lia.
    repeat (destruct Hc as [->|Hc]; [eexists; apply Hsome; reflexivity|]).
    subst z. eexists; apply Hsome; reflexivity. }
  assert (Hval : forall e, -13 <= Error.value e <= 0) by (intros e; destruct e; simpl; lia).
  split; [|split].
  - split; [intros [e <-]; apply Hval | exact Hrange].
  - exact Hsome.
  - split.
    + intros Hnone.
      destruct (Z.lt_ge_cases z (-13)) as [?|Hlo]; [left; assumption|].
      destruct (Z.lt_ge_cases 0 z) as [?|Hhi]; [right; assumption|].
      destruct (Hrange ltac:(lia)) as [e He]. apply Hsome in He. congruence.
    + intros Hout. destruct (Error.of_value z) as [e|] eqn:He; [|reflexivity].
      pose proof (proj1 (Hsome e) eq_refl) as Hv. specialize (Hval e). lia.
Qed.

(** * Further properties of the runtime settings *)

(** X7. In every setting a program can hold (default-constructed or
    returned by one of the five factories, in any build and for any input)
    the type tells which member of the union is live: [GetInt] reads it
    exactly when the type is [kPlayoutVolumeChange], [GetFloat] exactly
    when it is not.  The type also names the origin: only the default
    constructor gives [kNotSpecified], and it gives the payload 0. *)
Theorem RuntimeSetting_type_selects_getter (s : RuntimeSetting.t) :
  RuntimeSetting.made s ->
  (is_Some (RuntimeSetting.GetInt s)
   <-> RuntimeSetting.type s = RuntimeSetting.kPlayoutVolumeChange)
  /\ (is_Some (RuntimeSetting.GetFloat s)
      <-> RuntimeSetting.type s <> RuntimeSetting.kPlayoutVolumeChange)
  /\ (RuntimeSetting.GetInt s = None \/ RuntimeSetting.GetFloat s = None)
  /\ (RuntimeSetting.type s = RuntimeSetting.kNotSpecified
      <-> s = RuntimeSetting.ctor)
  /\ (RuntimeSetting.type s = RuntimeSetting.kNotSpecified ->
      RuntimeSetting.GetFloat s = Some Float32.lit_0).
Proof.
  assert (Hshape :
    RuntimeSetting.made s ->
    s = RuntimeSetting.ctor
    \/ (exists i, s = RuntimeSetting.Build RuntimeSetting.kPlayoutVolumeChange
                       (RuntimeSetting.U_int i))
    \/ (exists ty f, s = RuntimeSetting.Build ty (RuntimeSetting.U_float f)
                     /\ ty <> RuntimeSetting.kPlayoutVolumeChange
                     /\ ty <> RuntimeSetting.kNotSpecified)).
  { intros Hm. destruct Hm as [ | d g s H | d g s H | d g s H | v s H | p s H ].
    - left. reflexivity.
    - right. right. unfold RuntimeSetting.CreateCapturePreGain in H.
      destruct (RuntimeSetting.RTC_DCHECK d _); simpl in H; [|discriminate].
      injection H as <-. eexists _, _. repeat split; discriminate.
    - right. right. unfold RuntimeSetting.CreateCompressionGainDb in H.
      destruct (RuntimeSetting.RTC_DCHECK d (0 <=? g)); simpl in H; [|discriminate].
      destruct (RuntimeSetting.RTC_DCHECK d (g <=? 90)); simpl in H; [|discriminate].
      injection H as <-. eexists _, _. repeat split; discriminate.
    - right. right. unfold RuntimeSetting.CreateCaptureFixedPostGain in H.
      destruct (RuntimeSetting.RTC_DCHECK d (Float32.ge g Float32.lit_0));
        simpl in H; [|discriminate].
      destruct (RuntimeSetting.RTC_DCHECK d (Float32.le g Float32.lit_90));
        simpl in H; [|discriminate].
      injection H as <-. eexists _, _. repeat split; discriminate.
    - right. left. injection H as <-. eexists. reflexivity.
    - right. right. injection H as <-. eexists _, _. repeat split; discriminate. }
  intros Hm. destruct (Hshape Hm) as [-> | [[i ->] | (ty & f & -> & Hty & Hns)]].
  - cbn. repeat split; try discriminate; try (intros [x Hx]; discriminate);
      try (eexists; reflexivity); auto.
  - cbn. repeat split; try discriminate; try (intros [x Hx]; discriminate);
      try (eexists; reflexivity); auto.
    intros H. exfalso. apply H. reflexivity.
  - cbn. split; [|split; [|split; [|split]]].
    + split; [intros [x Hx]; discriminate | intros ->; contradiction].
    + split; [intros _; exact Hty | intros _; eexists; reflexivity].
    + left. reflexivity.
    + split; [intros ->; contradiction|].
      intros H. injection H as -> _. contradiction.
    + intros ->. contradiction.
Qed.

Lemma RuntimeSetting_type_selects_getter_witness :
  is_Some (RuntimeSetting.GetInt
             (RuntimeSetting.Build RuntimeSetting.kPlayoutVolumeChange
                (RuntimeSetting.U_int 7)))
  <-> RuntimeSetting.type
        (RuntimeSetting.Build RuntimeSetting.kPlayoutVolumeChange
           (RuntimeSetting.U_int 7))
      = RuntimeSetting.kPlayoutVolumeChange.
Proof.
  exact (proj1 (RuntimeSetting_type_selects_getter _
                  (RuntimeSetting.made_CreatePlayoutVolumeChange 7 _ eq_refl))).
Defined.

(** What [1.f <= g] and [0.f <= g <= 90.f] say of the class of [g]. *)
Lemma ge_lit_1_class g :
  Float32.ge g Float32.lit_1 = true ->
  Float32.is_nan g = false /\ Float32.is_zero g = false
  /\ Float32.sign_bit g = false.
Proof.
  destruct g as [sg|[|]| |[|] m e]; intros H.
  - lazy in H. discriminate H.
  - lazy in H. discriminate H.
  - repeat split.
  - lazy in H. discriminate H.
  - exfalso. unfold Float32.ge, Float32.lit_1, SFleb in H.
    cbv beta iota delta [SFcompare] in H. discriminate H.
  - repeat split.
Qed.

Lemma ge_lit_0_le_lit_90_class g :
  Float32.ge g Float32.lit_0 = true -> Float32.le g Float32.lit_90 = true ->
  Float32.is_nan g = false /\ Float32.is_infinite g = false
  /\ (Float32.is_zero g = true \/ Float32.sign_bit g = false).
Proof.
  destruct g as [sg|[|]| |[|] m e]; intros H0 H90.
  - repeat split. left. reflexivity.
  - lazy in H0. discriminate H0.
  - lazy in H90. discriminate H90.
  - lazy in H0. discriminate H0.
  - exfalso. unfold Float32.ge, Float32.lit_0, SFleb in H0.
    cbv beta iota delta [SFcompare] in H0. discriminate H0.
  - repeat split. right. reflexivity.
Qed.

(** X8. In a build with [RTC_DCHECK_IS_ON] a range-checked factory
    returns for every input inside its range and never returns a NaN.  A
    setting from [CreateCapturePreGain] carries a value that is positive
    and not zero; the positive infinity passes the check and is returned,
    a NaN is fatal.  One from [CreateCaptureFixedPostGain] carries a zero
    of either sign or a positive finite value, both infinities and a NaN
    being fatal.  One from [CreateCompressionGainDb] carries the conversion
    of an [int] between 0 and 90, from which that [int] is read back. *)
Theorem RuntimeSetting_checked_payloads (s : RuntimeSetting.t) :
  (forall gain, RuntimeSetting.CreateCapturePreGain true gain = Some s ->
     RuntimeSetting.GetFloat s = Some gain
     /\ Float32.is_nan gain = false /\ Float32.is_zero gain = false
     /\ Float32.sign_bit gain = false)
  /\ (forall gain_db, RuntimeSetting.CreateCaptureFixedPostGain true gain_db = Some s ->
     RuntimeSetting.GetFloat s = Some gain_db
     /\ Float32.is_nan gain_db = false /\ Float32.is_infinite gain_db = false
     /\ (Float32.is_zero gain_db = true \/ Float32.sign_bit gain_db = false))
  /\ (forall gain_db, RuntimeSetting.CreateCompressionGainDb true gain_db = Some s ->
     0 <= gain_db <= 90
     /\ exists f, RuntimeSetting.GetFloat s = Some f
                  /\ Float32.to_Z f = Some gain_db /\ Float32.valid f = true)
  /\ (forall gain, Float32.ge gain Float32.lit_1 = true ->
     RuntimeSetting.CreateCapturePreGain true gain
     = Some (RuntimeSetting.Build RuntimeSetting.kCapturePreGain
               (RuntimeSetting.U_float gain)))
  /\ (forall gain_db,
     Float32.ge gain_db Float32.lit_0 = true ->
     Float32.le gain_db Float32.lit_90 = true ->
     RuntimeSetting.CreateCaptureFixedPostGain true gain_db
     = Some (RuntimeSetting.Build RuntimeSetting.kCaptureFixedPostGain
               (RuntimeSetting.U_float gain_db)))
  /\ (forall gain_db, 0 <= gain_db <= 90 ->
     RuntimeSetting.CreateCompressionGainDb true gain_db
     = Some (RuntimeSetting.Build RuntimeSetting.kCaptureCompressionGain
               (RuntimeSetting.U_float (Float32.of_int gain_db))))
  /\ RuntimeSetting.CreateCapturePreGain true (S754_infinity false)
     = Some (RuntimeSetting.Build RuntimeSetting.kCapturePreGain
               (RuntimeSetting.U_float (S754_infinity false)))
  /\ RuntimeSetting.CreateCapturePreGain true S754_nan = None
  /\ RuntimeSetting.CreateCaptureFixedPostGain true (S754_infinity false) = None
  /\ RuntimeSetting.CreateCaptureFixedPostGain true (S754_infinity true) = None
  /\ RuntimeSetting.CreateCaptureFixedPostGain true S754_nan = None.
Proof.
  split; [|split; [|split; [|split; [|split; [|split]]]]].
  - intros g H. unfold RuntimeSetting.CreateCapturePreGain in H.
    destruct (Float32.ge g Float32.lit_1) eqn:Hge; [|discriminate].
    injection H as <-. split; [reflexivity|]. apply ge_lit_1_class, Hge.
  - intros g H. unfold RuntimeSetting.CreateCaptureFixedPostGain in H.
    destruct (Float32.ge g Float32.lit_0) eqn:H0; [|discriminate].
    destruct (Float32.le g Float32.lit_90) eqn:H90; [|discriminate].
    injection H as <-. split; [reflexivity|].
    apply ge_lit_0_le_lit_90_class; assumption.
  - intros g H. unfold RuntimeSetting.CreateCompressionGainDb in H.
    destruct (0 <=? g) eqn:H0; [|discriminate].
    destruct (g <=? 90) eqn:H90; [|discriminate].
    injection H as <-. apply Z.leb_le in H0, H90.
    split; [lia|]. eexists. split; [reflexivity|].
    apply Float32_of_int_exact. lia.
  - intros g Hge. unfold RuntimeSetting.CreateCapturePreGain.
    rewrite Hge, RTC_DCHECK_holds. reflexivity.
  - intros g H0 H90. unfold RuntimeSetting.CreateCaptureFixedPostGain.
    rewrite H0, H90, RTC_DCHECK_holds. reflexivity.
  - intros g Hg. unfold RuntimeSetting.CreateCompressionGainDb.
    assert (H0 : (0 <=? g) = true) by (apply Z.leb_le; lia).
    assert (H90 : (g <=? 90) = true) by (apply Z.leb_le; lia).
    rewrite H0, H90, RTC_DCHECK_holds. reflexivity.
  - repeat split.
Qed.

(** * Further properties of [Config] assignment *)

Lemma Config_assign_inv (m m1 : gmap Config.addr Config.t) (d c : Config.addr) :
  Config.assign d c m = Some m1 ->
  exists vd vc,
    m !! d = Some vd /\ m !! c = Some vc
    /\ m1 = (if decide (d = c) then m else <[d := vc]> m).
Proof.
  unfold Config.assign. intros H.
  destruct (m !! d) as [vd|] eqn:Hd; simpl in H; [|discriminate].
  destruct (m !! c) as [vc|] eqn:Hc; simpl in H; [|discriminate].
  injection H as <-. exists vd, vc. repeat split.
Qed.

(** X9. Copy assignment of [Config] composes as copying should: it
    neither creates nor destroys an object; repeating [d = c] or assigning
    back [c = d] afterwards changes nothing; after [d = c], [e = d] gives
    the same store as [e = c], in which [e] holds what [c] held at the
    start.  The assignment has a result exactly when both references
    designate live objects. *)
Theorem Config_assign_composes (m m1 : gmap Config.addr Config.t)
    (d c : Config.addr) :
  Config.assign d c m = Some m1 ->
  dom m1 = dom m
  /\ Config.assign d c m1 = Some m1
  /\ Config.assign c d m1 = Some m1
  /\ (forall e m2, Config.assign e d m1 = Some m2 ->
        Config.assign e c m1 = Some m2 /\ m2 !! e = m !! c)
  /\ (forall x y, is_Some (Config.assign x y m)
                  <-> is_Some (m !! x) /\ is_Some (m !! y)).
Proof.
  intros H. destruct (Config_assign_inv m m1 d c H) as (vd & vc & Hd & Hc & Hm1).
  assert (Hd1 : m1 !! d = Some vc).
  { subst m1. destruct (decide (d = c)) as [->|Hne]; [exact Hc | apply lookup_insert_eq]. }
  assert (Hc1 : m1 !! c = Some vc).
  { subst m1. destruct (decide (d = c)) as [->|Hne]; [exact Hc|].
    rewrite lookup_insert_ne by exact Hne. exact Hc. }
  split.
  { subst m1. destruct (decide (d = c)); [reflexivity|].
    apply dom_insert_lookup_L. rewrite Hd. eexists; reflexivity. }
  split.
  { rewrite (Config_assign_defined m1 d c vc vc Hd1 Hc1).
    destruct (decide (d = c)); [reflexivity|]. f_equal. apply insert_id, Hd1. }
  split.
  { rewrite (Config_assign_defined m1 c d vc vc Hc1 Hd1).
    destruct (decide (c = d)); [reflexivity|]. f_equal. apply insert_id, Hc1. }
  split.
  { intros e m2 He.
    destruct (Config_assign_inv m1 m2 e d He) as (ve & vd' & He1 & Hd' & Hm2).
    rewrite Hd1 in Hd'. injection Hd' as <-.
    assert (He2 : m2 !! e = Some vc).
    { subst m2. destruct (decide (e = d)) as [->|Hne]; [exact Hd1 | apply lookup_insert_eq]. }
    split; [|rewrite He2, Hc; reflexivity].
    rewrite (Config_assign_defined m1 e c ve vc He1 Hc1). f_equal. subst m2.
    destruct (decide (e = d)) as [Hed|Hed], (decide (e = c)) as [Hec|Hec];
      try reflexivity.
    - subst e. apply insert_id, Hd1.
    - subst e. symmetry. apply insert_id, Hc1. }
  intros x y. unfold Config.assign. split.
  - intros [r Hr].
    destruct (m !! x) as [vx|]; simpl in Hr; [|discriminate].
    destruct (m !! y) as [vy|]; simpl in Hr; [|discriminate].
    split; eexists; reflexivity.
  - intros [[vx Hx] [vy Hy]]. rewrite Hx, Hy. simpl. eexists; reflexivity.
Qed.

Lemma Config_assign_composes_witness :
  Config.assign 2%positive 1%positive
    (<[1%positive := Config.ctor 32000]>
       (<[2%positive := Config.ctor 32000]> ∅))
  = Some (<[1%positive := Config.ctor 32000]>
            (<[2%positive := Config.ctor 32000]> ∅)).
Proof.
  assert (H : Config.assign 1%positive 2%positive
                (<[1%positive := Config.ctor 48000]>
                   (<[2%positive := Config.ctor 32000]> ∅))
              = Some (<[1%positive := Config.ctor 32000]>
                        (<[2%positive := Config.ctor 32000]> ∅))).
  { vm_compute. reflexivity. }
  exact (proj1 (proj2 (proj2 (Config_assign_composes _ _ _ _ H)))).
Defined.

(** * Further properties of [ProcessingConfig] *)

Lemma StreamConfig_eqb_sym (x y : StreamConfig.t) :
  StreamConfig.eqb x y = StreamConfig.eqb y x.
Proof.
  unfold StreamConfig.eqb.
  rewrite (Z.eqb_sym (StreamConfig.sample_rate_hz_ x)),
    (Z.eqb_sym (StreamConfig.num_channels_ x)).
  f_equal. destruct (StreamConfig.has_keyboard_ x), (StreamConfig.has_keyboard_ y);
    reflexivity.
Qed.

(** The value of [operator==]: the loop runs through the four slots. *)
Lemma ProcessingConfig_eqb_value (a b : ProcessingConfig.t) :
  ProcessingConfig.eqb a b
  = Some (StreamConfig.eqb (ProcessingConfig.input_stream a)
            (ProcessingConfig.input_stream b)
          && StreamConfig.eqb (ProcessingConfig.output_stream a)
               (ProcessingConfig.output_stream b)
          && StreamConfig.eqb (ProcessingConfig.reverse_input_stream a)
               (ProcessingConfig.reverse_input_stream b)
          && StreamConfig.eqb (ProcessingConfig.reverse_output_stream a)
               (ProcessingConfig.reverse_output_stream b)).
Proof.
  destruct a as [a1 a2 a3 a4], b as [b1 b2 b3 b4].
  lazy -[StreamConfig.eqb andb].
  destruct (StreamConfig.eqb a1 b1); [|reflexivity].
  destruct (StreamConfig.eqb a2 b2); [|reflexivity].
  destruct (StreamConfig.eqb a3 b3); [|reflexivity].
  destruct (StreamConfig.eqb a4 b4); reflexivity.
Qed.

Lemma StreamConfig_eqb_trans (x y z : StreamConfig.t) :
  StreamConfig.eqb x y = true -> StreamConfig.eqb y z = StreamConfig.eqb x z.
Proof.
  intros Hxy. apply StreamConfig_eqb_agree in Hxy. destruct Hxy as (Hr & Hc & Hk).
  unfold StreamConfig.eqb, StreamConfig.sample_rate_hz, StreamConfig.num_channels,
    StreamConfig.has_keyboard in *.
  rewrite Hr, Hc, Hk. reflexivity.
Qed.

(** X10. [operator==] of [ProcessingConfig] (and of [StreamConfig]) is an
    equivalence: every configuration equals itself, the order of the
    operands does not matter, and a configuration equal to [b] compares
    with any third one as [b] does; [operator!=] is symmetric too. *)
Theorem ProcessingConfig_eqb_equivalence (a b c : ProcessingConfig.t) :
  ProcessingConfig.eqb a a = Some true
  /\ ProcessingConfig.eqb a b = ProcessingConfig.eqb b a
  /\ ProcessingConfig.neqb a b = ProcessingConfig.neqb b a
  /\ (ProcessingConfig.eqb a b = Some true ->
      ProcessingConfig.eqb b c = ProcessingConfig.eqb a c)
  /\ (forall x y z : StreamConfig.t,
        StreamConfig.eqb x x = true
        /\ StreamConfig.eqb x y = StreamConfig.eqb y x
        /\ (StreamConfig.eqb x y = true ->
            StreamConfig.eqb y z = StreamConfig.eqb x z)).
Proof.
  assert (Hsym : ProcessingConfig.eqb a b = ProcessingConfig.eqb b a).
  { rewrite !ProcessingConfig_eqb_value.
    rewrite (StreamConfig_eqb_sym (ProcessingConfig.input_stream a)),
      (StreamConfig_eqb_sym (ProcessingConfig.output_stream a)),
      (StreamConfig_eqb_sym (ProcessingConfig.reverse_input_stream a)),
      (StreamConfig_eqb_sym (ProcessingConfig.reverse_output_stream a)).
    reflexivity. }
  split.
  { rewrite ProcessingConfig_eqb_value, !StreamConfig_eqb_refl. reflexivity. }
  split; [exact Hsym|]. split.
  { unfold ProcessingConfig.neqb. rewrite Hsym. reflexivity. }
  split.
  { rewrite !ProcessingConfig_eqb_value. intros [= H].
    rewrite !andb_true_iff in H. destruct H as [[[Hi Ho] Hri] Hro].
    rewrite (StreamConfig_eqb_trans _ _ _ Hi), (StreamConfig_eqb_trans _ _ _ Ho),
      (StreamConfig_eqb_trans _ _ _ Hri), (StreamConfig_eqb_trans _ _ _ Hro).
    reflexivity. }
  intros x y z. split; [apply StreamConfig_eqb_refl|].
  split; [apply StreamConfig_eqb_sym | apply StreamConfig_eqb_trans].
Qed.

(** X11. The named accessors and the array agree, and a write through an
    accessor's reference touches one slot: [streams[i]] exists exactly for
    0 <= i < [kNumStreamNames] and the accessor of a name returns
    [streams[name]]; after assigning [s] through the accessor of a slot,
    that slot reads [s], every other index reads as before, and the
    configuration compares equal to the old one exactly when [s] compares
    equal to the stream it replaced. *)
Theorem ProcessingConfig_assign_slot_frame (c : ProcessingConfig.t)
    (n : ProcessingConfig.StreamName) (s : StreamConfig.t) :
  (forall i, is_Some (ProcessingConfig.streams c i)
             <-> 0 <= i < ProcessingConfig.kNumStreamNames)
  /\ (forall m, ProcessingConfig.streams c (ProcessingConfig.StreamName_value m)
                = Some (ProcessingConfig.slot c m))
  /\ ProcessingConfig.slot (ProcessingConfig.assign_slot n s c) n = s
  /\ (forall i, i <> ProcessingConfig.StreamName_value n ->
        ProcessingConfig.streams (ProcessingConfig.assign_slot n s c) i
        = ProcessingConfig.streams c i)
  /\ ProcessingConfig.eqb (ProcessingConfig.assign_slot n s c) c
     = Some (StreamConfig.eqb s (ProcessingConfig.slot c n))
  /\ ProcessingConfig.assign_slot n (ProcessingConfig.slot c n) c = c.
Proof.
  split.
  { intros i. unfold ProcessingConfig.kNumStreamNames. split.
    - intros [x Hx]. unfold ProcessingConfig.streams in Hx. cbn in Hx.
      destruct (i =? 0) eqn:E0; [apply Z.eqb_eq in E0; lia|].
      destruct (i =? 1) eqn:E1; [apply Z.eqb_eq in E1; lia|].
      destruct (i =? 2) eqn:E2; [apply Z.eqb_eq in E2; lia|].
      destruct (i =? 3) eqn:E3; [apply Z.eqb_eq in E3; lia|].
      discriminate.
    - intros Hi. destruct (streams_in_range c i Hi) as [x Hx]. eexists; exact Hx. }
  split; [intros m; destruct m; reflexivity|].
  split; [destruct n; reflexivity|].
  split.
  { intros i Hi. unfold ProcessingConfig.streams.
    destruct n; cbn in Hi |- *;
      repeat match goal with
             | |- context [?x =? ?y] =>
                 destruct (Z.eqb_spec x y); [try (subst; contradiction)|]
             end; reflexivity. }
  split.
  { rewrite ProcessingConfig_eqb_value.
    destruct n; cbn; rewrite !StreamConfig_eqb_refl;
      rewrite ?andb_true_r, ?andb_true_l; reflexivity. }
  destruct c, n; reflexivity.
Qed.

(** * The option structs *)


(** * Configuration defaults as runtime settings *)

(** X13. The range checks of the factories include their bounds, and the
    defaults of [Config] pass them: in a build with [RTC_DCHECK_IS_ON] the
    default [pre_amplifier.fixed_gain_factor] (1, the lower bound) is
    accepted by [CreateCapturePreGain], the default
    [gain_controller1.compression_gain_db] (9) by
    [CreateCompressionGainDb], and the default
    [gain_controller2.fixed_digital.gain_db] (0, the lower bound) by
    [CreateCaptureFixedPostGain], which also accepts the upper bound 90 and
    a negative zero; the nearest values outside the bounds (the largest
    [float] below 1, the smallest above 90) are fatal. *)
Theorem Config_defaults_pass_range_checks (rate : Z) :
  RuntimeSetting.CreateCapturePreGain true
    (Config.PreAmplifier.fixed_gain_factor (Config.pre_amplifier (Config.ctor rate)))
  = Some (RuntimeSetting.Build RuntimeSetting.kCapturePreGain
            (RuntimeSetting.U_float Float32.lit_1))
  /\ RuntimeSetting.CreateCompressionGainDb true
       (Config.GainController1.compression_gain_db
          (Config.gain_controller1 (Config.ctor rate)))
     = Some (RuntimeSetting.Build RuntimeSetting.kCaptureCompressionGain
               (RuntimeSetting.U_float (Float32.of_int 9)))
  /\ RuntimeSetting.CreateCaptureFixedPostGain true
       (Config.GainController2.FixedDigital.gain_db
          (Config.GainController2.fixed_digital
             (Config.gain_controller2 (Config.ctor rate))))
     = Some (RuntimeSetting.Build RuntimeSetting.kCaptureFixedPostGain
               (RuntimeSetting.U_float Float32.lit_0))
  /\ is_Some (RuntimeSetting.CreateCaptureFixedPostGain true Float32.lit_90)
  /\ is_Some (RuntimeSetting.CreateCaptureFixedPostGain true (S754_zero true))
  /\ Float32.valid (S754_finite false 16777215 (-24)) = true
  /\ RuntimeSetting.CreateCapturePreGain true (S754_finite false 16777215 (-24)) = None
  /\ Float32.valid (S754_finite false 11796481 (-17)) = true
  /\ RuntimeSetting.CreateCaptureFixedPostGain true (S754_finite false 11796481 (-17))
     = None.
Proof.
  split; [reflexivity|]. split; [reflexivity|]. split; [reflexivity|].
  split; [eexists; reflexivity|]. split; [eexists; reflexivity|].
  repeat split.
Qed.

(** * Equality of processing configurations built from constructed streams *)

(** X14. When the four streams of two [ProcessingConfig]s are objects
    reached from the [StreamConfig] constructor by setter calls,
    [operator==] holds exactly when the two configurations are the same in
    every member of every slot, [num_frames_] included; so configurations
    that compare equal have the same frame and sample counts in each
    slot. *)
Theorem ProcessingConfig_eqb_structural (w : Z) (a b : ProcessingConfig.t) :
  (forall n, StreamConfig.reachable w (ProcessingConfig.slot a n)) ->
  (forall n, StreamConfig.reachable w (ProcessingConfig.slot b n)) ->
  (ProcessingConfig.eqb a b = Some true <-> a = b)
  /\ (ProcessingConfig.eqb a b = Some true ->
      forall n,
        StreamConfig.num_frames (ProcessingConfig.slot a n)
        = StreamConfig.num_frames (ProcessingConfig.slot b n)
        /\ StreamConfig.num_samples w (ProcessingConfig.slot a n)
           = StreamConfig.num_samples w (ProcessingConfig.slot b n)).
Proof.
  intros Ha Hb.
  assert (Hiff : ProcessingConfig.eqb a b = Some true <-> a = b).
  { rewrite ProcessingConfig_eqb_value. split.
    - intros [= H]. rewrite !andb_true_iff in H. destruct H as [[[Hi Ho] Hri] Hro].
      apply (StreamConfig_reachable_eqb_eq w _ _
               (Ha ProcessingConfig.kInputStream) (Hb ProcessingConfig.kInputStream)) in Hi.
      apply (StreamConfig_reachable_eqb_eq w _ _
               (Ha ProcessingConfig.kOutputStream) (Hb ProcessingConfig.kOutputStream)) in Ho.
      apply (StreamConfig_reachable_eqb_eq w _ _
               (Ha ProcessingConfig.kReverseInputStream)
               (Hb ProcessingConfig.kReverseInputStream)) in Hri.
      apply (StreamConfig_reachable_eqb_eq w _ _
               (Ha ProcessingConfig.kReverseOutputStream)
               (Hb ProcessingConfig.kReverseOutputStream)) in Hro.
      destruct a, b. simpl in *. subst. reflexivity.
    - intros ->. rewrite !StreamConfig_eqb_refl. reflexivity. }
  split; [exact Hiff|].
  intros H n. apply Hiff in H. subst b. split; reflexivity.
Qed.

Lemma ProcessingConfig_eqb_structural_witness :
  ProcessingConfig.eqb
    (ProcessingConfig.Build
       (StreamConfig.Build 48000 2 false 480) (StreamConfig.Build 48000 2 false 480)
       (StreamConfig.Build 16000 1 false 160) (StreamConfig.Build 16000 1 false 160))
    (ProcessingConfig.Build
       (StreamConfig.Build 48000 2 false 480) (StreamConfig.Build 48000 2 false 480)
       (StreamConfig.Build 16000 1 false 160) (StreamConfig.Build 16000 1 false 160))
  = Some true.
Proof.
  assert (H48 : StreamConfig.reachable 64 (StreamConfig.Build 48000 2 false 480)).
  { apply (StreamConfig.reachable_ctor 64 48000 2 false). vm_compute. reflexivity. }
  assert (H16 : StreamConfig.reachable 64 (StreamConfig.Build 16000 1 false 160)).
  { apply (StreamConfig.reachable_ctor 64 16000 1 false). vm_compute. reflexivity. }
  assert (Hall : forall n, StreamConfig.reachable 64
            (ProcessingConfig.slot
               (ProcessingConfig.Build
                  (StreamConfig.Build 48000 2 false 480)
                  (StreamConfig.Build 48000 2 false 480)
                  (StreamConfig.Build 16000 1 false 160)
                  (StreamConfig.Build 16000 1 false 160)) n)).
  { intros n. destruct n; simpl; assumption. }
  exact (proj2 (proj1 (ProcessingConfig_eqb_structural 64 _ _ Hall Hall)) eq_refl).
Defined.
